(** * Lifecycle of the environmental-monitor application

    Shallow embedding of [src/main.py] (class [Application], the [/health]
    endpoint of [create_app]) and of the parts of [config/settings.py] they
    read.

    [SensorSimulator], [DataProcessor], [asyncio] tasks and the [loguru]
    logger live outside the embedded files.  Every call the application makes
    on them is a node of a finite call tree ([proc]); an environment ([Env])
    answers each call by returning a value, raising a Python exception or
    never answering.  The theorems quantify over all environments.  A call
    of [startup()] or [shutdown()] is run from its first statement to its
    last; two such calls are not interleaved. *)

From Stdlib Require Import String List Bool Arith ZArith QArith Lia.
Import ListNotations.
Local Open Scope nat_scope.
Local Open Scope string_scope.
Local Open Scope list_scope.

(** ** Python exceptions *)

(** The three families the handlers of [main.py] tell apart:
    [asyncio.CancelledError]; the instances of the classes that derive from
    [Exception]; the instances of the other classes that derive from
    [BaseException] ([KeyboardInterrupt], [SystemExit]).  Under Python >= 3.8
    [asyncio.CancelledError] derives from [BaseException] and is not matched
    by [except Exception].  [cls] is the class name, [msg] what [str(e)]
    gives. *)
Inductive exn : Type :=
| CancelledError
| Exception (cls msg : string)
| BaseException (cls msg : string).

Definition is_Exception (e : exn) : bool :=
  match e with Exception _ _ => true | _ => false end.

Definition is_CancelledError (e : exn) : bool :=
  match e with CancelledError => true | _ => false end.

(** [str(e)], as interpolated by the f-strings of the log messages. *)
Definition str (e : exn) : string :=
  match e with
  | CancelledError => ""
  | Exception _ msg => msg
  | BaseException _ msg => msg
  end.

(** ** config/settings.py (the fields the application passes on or reads) *)

Record SensorSettings : Type := {
  sampling_interval : Z;
  num_sensors : Z;
  failure_rate : Q;
  noise_level : Q
}.

Record APISettings : Type := {
  title : string;
  version : string;
  host : string;
  port : Z
}.

Record Settings : Type := {
  environment : string;
  debug : bool;
  log_level : string;
  log_format : string;
  sensors : SensorSettings;
  api : APISettings
}.

(** The [Field(default=...)] values. *)
Definition SensorSettings_default : SensorSettings :=
  {| sampling_interval := 30; num_sensors := 5;
     failure_rate := 1 # 100; noise_level := 1 # 10 |}.

Definition APISettings_default : APISettings :=
  {| title := "Environmental Monitor API"; version := "1.0.0";
     host := "0.0.0.0"; port := 8000 |}.

Definition Settings_default : Settings :=
  {| environment := "development"; debug := true;
     log_level := "INFO"; log_format := "json";
     sensors := SensorSettings_default; api := APISettings_default |}.

(** ** Handles on external objects *)

Inductive SensorSimulator : Type := SensorSimulatorObj (id : nat).
Inductive DataProcessor : Type := DataProcessorObj (id : nat).
Inductive Coroutine : Type := CoroutineObj (id : nat).
Inductive Task : Type := TaskObj (id : nat).

(** ** External calls *)

Inductive call : Type -> Type :=
| new_SensorSimulator (cfg : SensorSettings) : call SensorSimulator
| new_DataProcessor (cfg : Settings) : call DataProcessor
| sensor_start (s : SensorSimulator) : call Coroutine
| processor_start (p : DataProcessor) : call Coroutine
| create_task (c : Coroutine) (name : string) : call Task
| task_cancel (t : Task) : call bool
| await_task (t : Task) : call unit
| sensor_stop (s : SensorSimulator) : call unit
| processor_stop (p : DataProcessor) : call unit
| sensor_is_running (s : SensorSimulator) : call bool
| processor_is_running (p : DataProcessor) : call bool
| logger_info (msg : string) : call unit
| logger_error (msg : string) : call unit.

(** What a call does: it returns, raises, or never comes back (an [await]
    on a task that ignores its cancellation, a [stop()] that hangs). *)
Inductive reply (X : Type) : Type :=
| Returned (x : X)
| Raised (e : exn)
| Never.
Arguments Returned {X} x.
Arguments Raised {X} e.
Arguments Never {X}.

(** One entry of the trace of a run: the call and how it ended. *)
Inductive event : Type :=
| Ev {X : Type} (c : call X) (r : reply X).

(** ** Call trees and the monad of the methods *)

Inductive result (A : Type) : Type :=
| Normal (a : A)
| Raise (e : exn).
Arguments Normal {A} a.
Arguments Raise {A} e.

Inductive proc (R : Type) : Type :=
| Ret (r : R)
| Vis {X : Type} (c : call X) (k : result X -> proc R).
Arguments Ret {R} r.
Arguments Vis {R X} c k.

Fixpoint pbind {A B : Type} (p : proc A) (f : A -> proc B) : proc B :=
  match p with
  | Ret a => f a
  | Vis c k => Vis c (fun x => pbind (k x) f)
  end.

(** The attributes of [self] ([Application.__init__]). *)
Record Application : Type := {
  settings : Settings;
  sensor_simulator : option SensorSimulator;
  data_processor : option DataProcessor;
  background_tasks : list Task
}.

Definition Application_init (st : Settings) : Application :=
  {| settings := st; sensor_simulator := None; data_processor := None;
     background_tasks := [] |}.

(** A method body: reads and writes [self], makes external calls, ends
    normally or with an exception; the writes made before an exception
    stay. *)
Definition M (A : Type) : Type := Application -> proc (result A * Application).

Definition ret {A} (a : A) : M A := fun self => Ret (Normal a, self).
Definition raise {A} (e : exn) : M A := fun self => Ret (Raise e, self).

Definition bind {A B} (m : M A) (f : A -> M B) : M B :=
  fun self =>
    pbind (m self) (fun rs =>
      match fst rs with
      | Normal a => f a (snd rs)
      | Raise e => Ret (Raise e, snd rs)
      end).

Definition ext {X} (c : call X) : M X :=
  fun self => Vis c (fun r => Ret (r, self)).

Definition get_self : M Application := fun self => Ret (Normal self, self).
Definition put_self (s : Application) : M unit := fun _ => Ret (Normal tt, s).

(** [try: body except <class> as e: handler]; [handler e = None] when the
    except clause does not match [e], which then propagates. *)
Definition try_except {A} (body : M A) (handler : exn -> option (M A)) : M A :=
  fun self =>
    pbind (body self) (fun rs =>
      match fst rs with
      | Normal a => Ret (Normal a, snd rs)
      | Raise e =>
          match handler e with
          | Some h => h (snd rs)
          | None => Ret (Raise e, snd rs)
          end
      end).

(** [for x in xs: body x] *)
Fixpoint for_each {X} (xs : list X) (body : X -> M unit) : M unit :=
  match xs with
  | [] => ret tt
  | x :: rest => bind (body x) (fun _ => for_each rest body)
  end.

Declare Scope py_scope.
Delimit Scope py_scope with py.
Notation "x <- m ;; k" := (bind m (fun x => k))
  (at level 61, m at next level, right associativity) : py_scope.
Notation "m ;; k" := (bind m (fun _ => k))
  (at level 61, right associativity) : py_scope.
Local Open Scope py_scope.

(** ** src/main.py: class Application *)

Definition set_sensor_simulator (s : SensorSimulator) : M unit :=
  self <- get_self ;;
  put_self {| settings := settings self; sensor_simulator := Some s;
              data_processor := data_processor self;
              background_tasks := background_tasks self |}.

Definition set_data_processor (p : DataProcessor) : M unit :=
  self <- get_self ;;
  put_self {| settings := settings self;
              sensor_simulator := sensor_simulator self;
              data_processor := Some p;
              background_tasks := background_tasks self |}.

(** [self.background_tasks.append(t)] *)
Definition background_tasks_append (t : Task) : M unit :=
  self <- get_self ;;
  put_self {| settings := settings self;
              sensor_simulator := sensor_simulator self;
              data_processor := data_processor self;
              background_tasks := background_tasks self ++ [t] |}.

Definition NoneType_has_no (attr : string) : exn :=
  Exception "AttributeError"
            ("'NoneType' object has no attribute '" ++ attr ++ "'").

Definition _start_background_services : M unit :=
  self <- get_self ;;
  coro <- match sensor_simulator self with
          | Some s => ext (sensor_start s)
          | None => raise (NoneType_has_no "start")
          end ;;
  sensor_task <- ext (create_task coro "sensor_simulator") ;;
  background_tasks_append sensor_task ;;
  self <- get_self ;;
  coro <- match data_processor self with
          | Some p => ext (processor_start p)
          | None => raise (NoneType_has_no "start")
          end ;;
  processor_task <- ext (create_task coro "data_processor") ;;
  background_tasks_append processor_task ;;
  ext (logger_info "🔄 Background services started").

(** The f-strings of the two error logs. *)
Definition startup_failed (e : exn) : string := "❌ Startup failed: " ++ str e.
Definition shutdown_error (e : exn) : string := "❌ Shutdown error: " ++ str e.
Arguments startup_failed : simpl never.
Arguments shutdown_error : simpl never.

Definition startup : M unit :=
  ext (logger_info "🚀 Starting Environmental Monitor System") ;;
  try_except
    (self <- get_self ;;
     s <- ext (new_SensorSimulator (sensors (settings self))) ;;
     set_sensor_simulator s ;;
     self <- get_self ;;
     p <- ext (new_DataProcessor (settings self)) ;;
     set_data_processor p ;;
     _start_background_services ;;
     ext (logger_info "✅ System startup complete"))
    (fun e =>
       if is_Exception e
       then Some (ext (logger_error (startup_failed e)) ;;
                  raise e)
       else None).

(** The body of the [for task in self.background_tasks] loop:
    [task.cancel()] is outside the inner [try], [await task] inside. *)
Definition cancel_and_await (task : Task) : M unit :=
  ext (task_cancel task) ;;
  try_except (ext (await_task task))
    (fun e => if is_CancelledError e then Some (ret tt) else None).

(** [if self.sensor_simulator:] tests the object for truth; an instance of
    a class that defines neither [__bool__] nor [__len__] is true, so the
    test is read as [is not None]. *)
Definition shutdown : M unit :=
  ext (logger_info "🛑 Shutting down Environmental Monitor System") ;;
  try_except
    (self <- get_self ;;
     for_each (background_tasks self) cancel_and_await ;;
     self <- get_self ;;
     match sensor_simulator self with
     | Some s => ext (sensor_stop s)
     | None => ret tt
     end ;;
     self <- get_self ;;
     match data_processor self with
     | Some p => ext (processor_stop p)
     | None => ret tt
     end ;;
     ext (logger_info "✅ Shutdown complete"))
    (fun e =>
       if is_Exception e
       then Some (ext (logger_error (shutdown_error e)))
       else None).

(** ** src/main.py: the /health endpoint *)

Record ServicesStatus : Type := {
  sensors_running : bool;      (* key "sensors" *)
  processor_running : bool     (* key "processor" *)
}.

Record HealthResponse : Type := {
  status : string;
  health_environment : string; (* key "environment" *)
  health_version : string;     (* key "version" *)
  services : ServicesStatus
}.

(** [health_check] closes over [settings] and [app_instance]; it does not
    write [self]. *)
Definition health_check (st : Settings) : M HealthResponse :=
  self <- get_self ;;
  s <- match sensor_simulator self with
       | Some s => ext (sensor_is_running s)
       | None => ret false
       end ;;
  p <- match data_processor self with
       | Some p => ext (processor_is_running p)
       | None => ret false
       end ;;
  ret {| status := "healthy";
         health_environment := environment st;
         health_version := version (api st);
         services := {| sensors_running := s; processor_running := p |} |}.

(** ** Environments and runs *)

(** An environment answers the calls.  [World] is everything outside
    [self]: the state of the services, of the event loop and of its tasks.
    Reading [is_running] is a plain attribute read: it yields a value and
    changes nothing.  The logger always returns. *)
Record Env : Type := {
  World : Type;
  SensorSimulator_new : SensorSettings -> World -> reply SensorSimulator * World;
  DataProcessor_new : Settings -> World -> reply DataProcessor * World;
  SensorSimulator_start : SensorSimulator -> World -> reply Coroutine * World;
  DataProcessor_start : DataProcessor -> World -> reply Coroutine * World;
  asyncio_create_task : Coroutine -> string -> World -> reply Task * World;
  Task_cancel : Task -> World -> reply bool * World;
  Task_await : Task -> World -> reply unit * World;
  SensorSimulator_stop : SensorSimulator -> World -> reply unit * World;
  DataProcessor_stop : DataProcessor -> World -> reply unit * World;
  SensorSimulator_is_running : SensorSimulator -> World -> bool;
  DataProcessor_is_running : DataProcessor -> World -> bool
}.

Definition handle (E : Env) {X} (c : call X) (w : World E) : reply X * World E :=
  match c in call T return reply T * World E with
  | new_SensorSimulator cfg => SensorSimulator_new E cfg w
  | new_DataProcessor cfg => DataProcessor_new E cfg w
  | sensor_start s => SensorSimulator_start E s w
  | processor_start p => DataProcessor_start E p w
  | create_task c name => asyncio_create_task E c name w
  | task_cancel t => Task_cancel E t w
  | await_task t => Task_await E t w
  | sensor_stop s => SensorSimulator_stop E s w
  | processor_stop p => DataProcessor_stop E p w
  | sensor_is_running s => (Returned (SensorSimulator_is_running E s w), w)
  | processor_is_running p => (Returned (DataProcessor_is_running E p w), w)
  | logger_info _ => (Returned tt, w)
  | logger_error _ => (Returned tt, w)
  end.

(** The end of a run: [final = None] when the run is blocked for ever in
    its last call. *)
Record run_result (R W : Type) : Type := {
  final : option R;
  world : W;
  trace : list event
}.
Arguments final {R W} _.
Arguments world {R W} _.
Arguments trace {R W} _.

Definition after {R W} (ev : event) (r : run_result R W) : run_result R W :=
  {| final := final r; world := world r; trace := ev :: trace r |}.

Fixpoint run (E : Env) {R} (p : proc R) (w : World E) : run_result R (World E) :=
  match p with
  | Ret r => {| final := Some r; world := w; trace := [] |}
  | Vis c k =>
      match handle E c w with
      | (Returned x, w') => after (Ev c (Returned x)) (run E (k (Normal x)) w')
      | (Raised e, w') => after (Ev c (Raised e)) (run E (k (Raise e)) w')
      | (Never, w') => {| final := None; world := w'; trace := [Ev c Never] |}
      end
  end.

(** Running a method on [self] in world [w]. *)
Definition exec (E : Env) {A} (m : M A) (self : Application) (w : World E)
  : run_result (result A * Application) (World E) :=
  run E (m self) w.

(** [self] and the world after [startup()], and after [startup()] then
    [shutdown()]; [None] when a call blocks. *)
Definition started (E : Env) (self0 : Application) (w0 : World E)
  : option (result unit * Application * World E) :=
  let r := exec E startup self0 w0 in
  match final r with
  | Some (res, self) => Some (res, self, world r)
  | None => None
  end.

Definition stopped (E : Env) (self0 : Application) (w0 : World E)
  : option (result unit * Application * World E) :=
  match started E self0 w0 with
  | Some (_, self, w) =>
      let r := exec E shutdown self w in
      match final r with
      | Some (res, self') => Some (res, self', world r)
      | None => None
      end
  | None => None
  end.

(** ** Reading traces *)

Definition is_stop (ev : event) : bool :=
  match ev with
  | Ev (sensor_stop _) _ => true
  | Ev (processor_stop _) _ => true
  | _ => false
  end.

Definition is_cancel (ev : event) : bool :=
  match ev with Ev (task_cancel _) _ => true | _ => false end.

Definition is_await (ev : event) : bool :=
  match ev with Ev (await_task _) _ => true | _ => false end.

Definition is_construct (ev : event) : bool :=
  match ev with
  | Ev (new_SensorSimulator _) _ => true
  | Ev (new_DataProcessor _) _ => true
  | _ => false
  end.

(** Spawning a unit: calling [start()] and handing it to [create_task]. *)
Definition is_spawn (ev : event) : bool :=
  match ev with
  | Ev (sensor_start _) _ => true
  | Ev (processor_start _) _ => true
  | Ev (create_task _ _) _ => true
  | _ => false
  end.

Definition is_log (ev : event) : bool :=
  match ev with
  | Ev (logger_info _) _ => true
  | Ev (logger_error _) _ => true
  | _ => false
  end.

Definition never_answered (ev : event) : bool :=
  match ev with Ev _ Never => true | _ => false end.

Definition raised (ev : event) : option exn :=
  match ev with Ev _ (Raised e) => Some e | _ => None end.

(** The calls on services and tasks, the logger left out. *)
Definition calls (tr : list event) : list event :=
  filter (fun ev => negb (is_log ev)) tr.

(** [all_before p q tr]: in [tr] no event satisfying [p] comes after an
    event satisfying [q]. *)
Fixpoint all_before (p q : event -> bool) (tr : list event) : bool :=
  match tr with
  | [] => true
  | ev :: rest =>
      (if q ev then forallb (fun x => negb (p x)) rest else true)
      && all_before p q rest
  end.

(** A call without its answer, and the calls of a trace in order. *)
Definition act : Type := {X : Type & call X}.
Definition Act {X} (c : call X) : act := existT call X c.
Definition the_call (ev : event) : act :=
  match ev with @Ev X c _ => Act c end.

Definition prefix {A} (l1 l2 : list A) : Prop := exists rest, l2 = l1 ++ rest.
Definition ends_with {A} (l tail : list A) : Prop := exists pre, l = pre ++ tail.

(** ** A laboratory environment

    Two services with an [is_running] flag each.  With [eager] the flag of a
    service is up as soon as its task is created; a [stop()] that returns
    clears it.  What the constructors, [create_task], the awaited tasks and
    the [stop()] methods answer is given by a script; the answer of the
    sensor simulator's [stop()] may depend on how often it was called
    before. *)
Module Lab.

Record Script : Type := {
  sensor_ctor : reply unit;
  processor_ctor : reply unit;
  spawn : string -> reply unit;
  eager : bool;
  task_awaited : Task -> reply unit;
  sensor_stopped : nat -> reply unit;
  processor_stopped : reply unit
}.

Record Plant : Type := {
  fresh : nat;
  sensor_flag : bool;
  processor_flag : bool;
  sensor_stops : nat
}.

Definition power_on : Plant :=
  {| fresh := 0; sensor_flag := false; processor_flag := false;
     sensor_stops := 0 |}.

Definition bump (w : Plant) : Plant :=
  {| fresh := S (fresh w); sensor_flag := sensor_flag w;
     processor_flag := processor_flag w; sensor_stops := sensor_stops w |}.

Definition answer {X Y} (r : reply X) (y : Y) : reply Y :=
  match r with
  | Returned _ => Returned y
  | Raised e => Raised e
  | Never => Never
  end.

Definition returned {X} (r : reply X) : bool :=
  match r with Returned _ => true | _ => false end.

Definition spawned (sc : Script) (name : string) (w : Plant) : Plant :=
  let up := eager sc && returned (spawn sc name) in
  {| fresh := S (fresh w);
     sensor_flag := sensor_flag w || (up && String.eqb name "sensor_simulator");
     processor_flag := processor_flag w || (up && String.eqb name "data_processor");
     sensor_stops := sensor_stops w |}.

Definition stop_sensor (r : reply unit) (w : Plant) : Plant :=
  {| fresh := fresh w; sensor_flag := sensor_flag w && negb (returned r);
     processor_flag := processor_flag w; sensor_stops := S (sensor_stops w) |}.

Definition stop_processor (r : reply unit) (w : Plant) : Plant :=
  {| fresh := fresh w; sensor_flag := sensor_flag w;
     processor_flag := processor_flag w && negb (returned r);
     sensor_stops := sensor_stops w |}.

Definition env (sc : Script) : Env :=
  {| World := Plant;
     SensorSimulator_new := fun _ w =>
       (answer (sensor_ctor sc) (SensorSimulatorObj (fresh w)), bump w);
     DataProcessor_new := fun _ w =>
       (answer (processor_ctor sc) (DataProcessorObj (fresh w)), bump w);
     SensorSimulator_start := fun _ w =>
       (Returned (CoroutineObj (fresh w)), bump w);
     DataProcessor_start := fun _ w =>
       (Returned (CoroutineObj (fresh w)), bump w);
     asyncio_create_task := fun _ name w =>
       (answer (spawn sc name) (TaskObj (fresh w)), spawned sc name w);
     Task_cancel := fun _ w => (Returned true, w);
     Task_await := fun t w => (task_awaited sc t, w);
     SensorSimulator_stop := fun _ w =>
       (sensor_stopped sc (sensor_stops w),
        stop_sensor (sensor_stopped sc (sensor_stops w)) w);
     DataProcessor_stop := fun _ w =>
       (processor_stopped sc, stop_processor (processor_stopped sc) w);
     SensorSimulator_is_running := fun _ w => sensor_flag w;
     DataProcessor_is_running := fun _ w => processor_flag w |}.

(** Every service behaves: constructors, [create_task] and [stop()] return,
    a cancelled task ends with [CancelledError]. *)
Definition nominal : Script :=
  {| sensor_ctor := Returned tt;
     processor_ctor := Returned tt;
     spawn := fun _ => Returned tt;
     eager := true;
     task_awaited := fun _ => Raised CancelledError;
     sensor_stopped := fun _ => Returned tt;
     processor_stopped := Returned tt |}.

(** The application of [app_instance = Application()] with the default
    settings. *)
Definition app_instance : Application := Application_init Settings_default.

(** The tasks have not run yet when [startup()] comes back: no flag is up. *)
Definition lazy : Script :=
  {| sensor_ctor := Returned tt;
     processor_ctor := Returned tt;
     spawn := fun _ => Returned tt;
     eager := false;
     task_awaited := fun _ => Raised CancelledError;
     sensor_stopped := fun _ => Returned tt;
     processor_stopped := Returned tt |}.

(** The constructor of the sensor simulator fails: "config missing". *)
Definition config_missing : Script :=
  {| sensor_ctor := Raised (Exception "ValueError" "config missing");
     processor_ctor := Returned tt;
     spawn := fun _ => Returned tt;
     eager := true;
     task_awaited := fun _ => Raised CancelledError;
     sensor_stopped := fun _ => Returned tt;
     processor_stopped := Returned tt |}.

(** The constructor of the data processor fails. *)
Definition processor_broken : Script :=
  {| sensor_ctor := Returned tt;
     processor_ctor := Raised (Exception "RuntimeError" "models not found");
     spawn := fun _ => Returned tt;
     eager := true;
     task_awaited := fun _ => Raised CancelledError;
     sensor_stopped := fun _ => Returned tt;
     processor_stopped := Returned tt |}.

(** The sensor task is running when [create_task] fails for the data
    processor. *)
Definition spawn_fails : Script :=
  {| sensor_ctor := Returned tt;
     processor_ctor := Returned tt;
     spawn := fun name =>
       if String.eqb name "data_processor"
       then Raised (Exception "RuntimeError" "no running event loop")
       else Returned tt;
     eager := true;
     task_awaited := fun _ => Raised CancelledError;
     sensor_stopped := fun _ => Returned tt;
     processor_stopped := Returned tt |}.

(** The tasks catch [CancelledError] and go on: awaiting them never ends. *)
Definition ignores_cancellation : Script :=
  {| sensor_ctor := Returned tt;
     processor_ctor := Returned tt;
     spawn := fun _ => Returned tt;
     eager := true;
     task_awaited := fun _ => Never;
     sensor_stopped := fun _ => Returned tt;
     processor_stopped := Returned tt |}.

(** [stop()] of the sensor simulator cancels its own inner task and awaits
    it without catching: [CancelledError] comes out of [stop()]. *)
Definition stop_leaks_cancellation : Script :=
  {| sensor_ctor := Returned tt;
     processor_ctor := Returned tt;
     spawn := fun _ => Returned tt;
     eager := true;
     task_awaited := fun _ => Raised CancelledError;
     sensor_stopped := fun _ => Raised CancelledError;
     processor_stopped := Returned tt |}.

(** [stop()] of the sensor simulator fails with an ordinary error. *)
Definition stop_fails : Script :=
  {| sensor_ctor := Returned tt;
     processor_ctor := Returned tt;
     spawn := fun _ => Returned tt;
     eager := true;
     task_awaited := fun _ => Raised CancelledError;
     sensor_stopped := fun _ => Raised (Exception "RuntimeError" "sensor bus unavailable");
     processor_stopped := Returned tt |}.

(** [stop()] of the sensor simulator waits for a signal its loop gives
    once: the first call returns, a second one waits for ever. *)
Definition stop_waits_again : Script :=
  {| sensor_ctor := Returned tt;
     processor_ctor := Returned tt;
     spawn := fun _ => Returned tt;
     eager := true;
     task_awaited := fun _ => Raised CancelledError;
     sensor_stopped := fun n => match n with O => Returned tt | S _ => Never end;
     processor_stopped := Returned tt |}.

(** The state and the world a [startup()] that went well leaves; in
    [waiting_plant] the two tasks have not run yet. *)
Definition running_app : Application :=
  {| settings := Settings_default;
     sensor_simulator := Some (SensorSimulatorObj 0);
     data_processor := Some (DataProcessorObj 1);
     background_tasks := [TaskObj 3; TaskObj 5] |}.

Definition running_plant : Plant :=
  {| fresh := 6; sensor_flag := true; processor_flag := true; sensor_stops := 0 |}.

Definition waiting_plant : Plant :=
  {| fresh := 6; sensor_flag := false; processor_flag := false;
     sensor_stops := 0 |}.

End Lab.


(** ** Runs of composed programs *)

Definition done {R W} (r : R) (w : W) : run_result R W :=
  {| final := Some r; world := w; trace := [] |}.

(** Sequencing at the level of runs: the second run starts in the world the
    first one left, unless the first one is blocked. *)
Definition and_then {A B W} (r : run_result A W)
    (k : A -> W -> run_result B W) : run_result B W :=
  match final r with
  | Some a =>
      {| final := final (k a (world r)); world := world (k a (world r));
         trace := trace r ++ trace (k a (world r)) |}
  | None => {| final := None; world := world r; trace := trace r |}
  end.

Definition quiet (ev : event) : bool :=
  match ev with
  | Ev _ (Returned _) => true
  | Ev (await_task _) (Raised e) => is_CancelledError e
  | _ => false
  end.

(** An event a [shutdown()] gets over: the call returned, or raised an
    exception deriving from [Exception], or it is the [CancelledError] of an
    awaited task. *)
Definition benign (ev : event) : bool :=
  match ev with
  | Ev _ (Returned _) => true
  | Ev c (Raised e) => is_Exception e || (is_CancelledError e && is_await (Ev c (Raised e)))
  | Ev _ Never => false
  end.

Definition loop_plan (ts : list Task) : list act :=
  flat_map (fun t => [Act (task_cancel t); Act (await_task t)]) ts.

Definition shutdown_plan (self : Application) : list act :=
  loop_plan (background_tasks self)
  ++ match sensor_simulator self with Some s => [Act (sensor_stop s)] | None => [] end
  ++ match data_processor self with Some p => [Act (processor_stop p)] | None => [] end.

Definition startup_plan (st : Settings) (s : SensorSimulator) (p : DataProcessor)
    (c1 : Coroutine) (c2 : Coroutine) : list act :=
  [Act (new_SensorSimulator (sensors st)); Act (new_DataProcessor st);
   Act (sensor_start s); Act (create_task c1 "sensor_simulator");
   Act (processor_start p); Act (create_task c2 "data_processor")].

(** The two pieces of [shutdown] around its loop: the calls that follow
    the loop, and the clause [except Exception as e]. *)
Definition stop_services : M unit :=
  self <- get_self ;;
  match sensor_simulator self with
  | Some s => ext (sensor_stop s)
  | None => ret tt
  end ;;
  self <- get_self ;;
  match data_processor self with
  | Some p => ext (processor_stop p)
  | None => ret tt
  end ;;
  ext (logger_info "✅ Shutdown complete").

Definition shutdown_handler (e : exn) : option (M unit) :=
  if is_Exception e
  then Some (ext (logger_error (shutdown_error e)))
  else None.

(** What a run of the loop of [shutdown] looks like. *)
Definition loop_shape (E : Env) (self : Application)
    (r : run_result (result unit * Application) (World E)) : Prop :=
  forallb (fun ev => is_cancel ev || is_await ev) (trace r) = true /\
  match final r with
  | Some (Normal _, s') => s' = self /\ forallb quiet (trace r) = true
  | Some (Raise e, s') =>
      s' = self /\
      exists pre ev, trace r = pre ++ [ev] /\ raised ev = Some e /\
                     quiet ev = false /\ forallb quiet pre = true
  | None =>
      exists pre ev, trace r = pre ++ [ev] /\ never_answered ev = true /\
                     forallb quiet pre = true
  end.

Definition answered (ev : event) : bool :=
  match ev with Ev _ (Returned _) => true | _ => false end.

(** The states an application can be in: the one [Application()] builds, and
    those a [startup()] or a [shutdown()] that came back leaves, whatever the
    world did in between. *)
Inductive reachable (E : Env) : Application -> Prop :=
| reachable_init (st : Settings) : reachable E (Application_init st)
| reachable_startup self w res self' :
    reachable E self ->
    final (exec E startup self w) = Some (res, self') ->
    reachable E self'
| reachable_shutdown self w res self' :
    reachable E self ->
    final (exec E shutdown self w) = Some (res, self') ->
    reachable E self'.

(** ** What the specification states

    The statements of the lifecycle specification that the code does not
    meet, written over the same runs, so that they can be tested on the
    laboratory. *)

Definition all_running (E : Env) (self : Application) (w : World E) : bool :=
  match sensor_simulator self, data_processor self with
  | Some s, Some p =>
      SensorSimulator_is_running E s w && DataProcessor_is_running E p w
  | _, _ => false
  end.

(** After a successful [startup()] the overall status is "healthy" if and
    only if every service is running, and "degraded" otherwise. *)
Definition status_tracks_probes (E : Env) (st : Settings)
    (self0 : Application) (w0 : World E) : Prop :=
  forall self w,
    started E self0 w0 = Some (Normal tt, self, w) ->
    forall h s',
      final (exec E (health_check st) self w) = Some (Normal h, s') ->
      (status h = "healthy" <-> all_running E self w = true) /\
      (all_running E self w = false -> status h = "degraded").

(** The run ends with an exception of class [cls] and [self] as it was. *)
Definition fails_with {A W} (cls : string)
    (r : run_result (result A * Application) W) (self : Application) : Prop :=
  exists msg, final r = Some (Raise (Exception cls msg), self).

(** [shutdown()] before any [startup()] is refused. *)
Definition shutdown_guarded (E : Env) (st : Settings) (w : World E) : Prop :=
  fails_with "InvalidLifecycleTransition"
    (exec E shutdown (Application_init st) w) (Application_init st).

(** A second [startup()] is refused. *)
Definition startup_guarded (E : Env) (self0 : Application) (w0 : World E) : Prop :=
  forall self w,
    started E self0 w0 = Some (Normal tt, self, w) ->
    fails_with "InvalidLifecycleTransition" (exec E startup self w) self.

Definition is_sensor_stop (ev : event) : bool :=
  match ev with Ev (sensor_stop _) _ => true | _ => false end.

(** The second service, the data processor, fails to be constructed or
    spawned. *)
Definition processor_failed (ev : event) : bool :=
  match ev with
  | Ev (new_DataProcessor _) (Raised _) => true
  | Ev (processor_start _) (Raised _) => true
  | Ev (create_task _ name) (Raised _) => String.eqb name "data_processor"
  | _ => false
  end.

(** When the second service fails to start, [stop()] has been invoked
    exactly once on the first by the time [startup()] raises. *)
Definition rolls_back (E : Env) (self : Application) (w : World E) : Prop :=
  existsb processor_failed (trace (exec E startup self w)) = true ->
  length (filter is_sensor_stop (trace (exec E startup self w))) = 1.

(** [shutdown()] always comes back. *)
Definition shutdown_always_returns (E : Env) (self : Application) (w : World E) : Prop :=
  final (exec E shutdown self w) <> None.

(** [shutdown()] completes normally whatever the services do. *)
Definition shutdown_completes_normally (E : Env) (self : Application) (w : World E) : Prop :=
  exists s', final (exec E shutdown self w) = Some (Normal tt, s').

(** Every unit is cancelled before the wait begins, and all of that comes
    before the first [stop()]. *)
Definition cancels_all_then_waits (E : Env) (self : Application) (w : World E) : Prop :=
  all_before is_cancel is_await (trace (exec E shutdown self w)) = true /\
  all_before (fun ev => is_cancel ev || is_await ev) is_stop
    (trace (exec E shutdown self w)) = true.

(** [startup()] raises a [StartupError]. *)
Definition raises_StartupError (E : Env) (self : Application) (w : World E) : Prop :=
  exists msg s',
    final (exec E startup self w) = Some (Raise (Exception "StartupError" msg), s').

Definition reports_all_stopped (h : HealthResponse) : Prop :=
  sensors_running (services h) = false /\
  processor_running (services h) = false.

(** Once [startup()] and then [shutdown()] have come back, the health
    snapshot reports every service as not running. *)
Definition stopped_reports_all_stopped (E : Env) (st : Settings)
    (self0 : Application) (w0 : World E) : Prop :=
  forall res self w,
    stopped E self0 w0 = Some (res, self, w) ->
    forall h s',
      final (exec E (health_check st) self w) = Some (Normal h, s') ->
      reports_all_stopped h.

(** A second [shutdown()] right after the first completes without raising
    and leaves the state the first one left. *)
Definition second_shutdown_safe (E : Env) (self : Application) (w : World E) : Prop :=
  forall res1 s1,
    final (exec E shutdown self w) = Some (res1, s1) ->
    final (exec E shutdown s1 (world (exec E shutdown self w))) =
    Some (Normal tt, s1).

Definition processor_ctor_failed (ev : event) : bool :=
  match ev with
  | Ev (new_DataProcessor _) (Raised _) => true
  | _ => false
  end.

(** ** src/main.py: lifespan

    [lifespan] is an [asynccontextmanager]: [startup()], then the [yield],
    at which the body of the caller's [async with] runs, then [shutdown()].
    There is no [try] around the [yield]: an exception of the body is thrown
    into the generator there and leaves it. *)
Definition lifespan (serving : M unit) : M unit :=
  startup ;; serving ;; shutdown.

(** ** More ways to read states and traces *)

(** [self'] is what [self] has become after some calls of [startup()] and
    [shutdown()] that came back. *)
Inductive evolves (E : Env) : Application -> Application -> Prop :=
| evolves_refl self : evolves E self self
| evolves_startup self self1 w res self2 :
    evolves E self self1 ->
    final (exec E startup self1 w) = Some (res, self2) ->
    evolves E self self2
| evolves_shutdown self self1 w res self2 :
    evolves E self self1 ->
    final (exec E shutdown self1 w) = Some (res, self2) ->
    evolves E self self2.

Definition is_stop_act (a : act) : bool :=
  match projT2 a with
  | sensor_stop _ => true
  | processor_stop _ => true
  | _ => false
  end.

(** The [stop()] calls [shutdown] has in store for the services [self]
    holds. *)
Definition held_stops (self : Application) : list act :=
  match sensor_simulator self with Some s => [Act (sensor_stop s)] | None => [] end
  ++ match data_processor self with Some p => [Act (processor_stop p)] | None => [] end.

(** The log line [msg] at level INFO; any line at level ERROR. *)
Definition said (msg : string) (ev : event) : bool :=
  match ev with
  | Ev (logger_info m) _ => String.eqb m msg
  | _ => false
  end.

Definition is_error_log (ev : event) : bool :=
  match ev with Ev (logger_error _) _ => true | _ => false end.

(** A call that raised an exception deriving from [Exception]. *)
Definition raised_Exception (ev : event) : bool :=
  match raised ev with
  | Some e => is_Exception e
  | None => false
  end.

(** How a run ended. *)
Definition returned_normally {A W} (r : run_result (result A * Application) W) : bool :=
  match final r with
  | Some (Normal _, _) => true
  | _ => false
  end.

Definition failed_with_Exception {A W} (r : run_result (result A * Application) W) : bool :=
  match final r with
  | Some (Raise e, _) => is_Exception e
  | _ => false
  end.

(** One of the two tasks ended on its own with an error, which awaiting it
    raises again. *)
Definition task_died : Lab.Script :=
  {| Lab.sensor_ctor := Returned tt;
     Lab.processor_ctor := Returned tt;
     Lab.spawn := fun _ => Returned tt;
     Lab.eager := true;
     Lab.task_awaited := fun _ => Raised (Exception "ConnectionError" "broker down");
     Lab.sensor_stopped := fun _ => Returned tt;
     Lab.processor_stopped := Returned tt |}.

(** ** config/settings.py: connection URLs and environment tests *)

From Stdlib Require Import DecimalString.

(** [str(n)] for an [int], as an f-string interpolates it. *)
Definition str_int (z : Z) : string := NilZero.string_of_int (Z.to_int z).

Module DatabaseSettings.

Record t : Type := {
  host : string;
  port : Z;
  name : string;
  user : string;
  password : string
}.

Definition url (self : t) : string :=
  "postgresql://" ++ user self ++ ":" ++ password self ++ "@" ++ host self
  ++ ":" ++ str_int (port self) ++ "/" ++ name self.

End DatabaseSettings.

Module RedisSettings.

Record t : Type := {
  host : string;
  port : Z;
  db : Z;
  password : option string
}.

(** [if self.password:] is false for [None] and for the empty string. *)
Definition url (self : t) : string :=
  match password self with
  | Some (String c pw) =>
      "redis://:" ++ String c pw ++ "@" ++ host self ++ ":"
      ++ str_int (port self) ++ "/" ++ str_int (db self)
  | _ =>
      "redis://" ++ host self ++ ":" ++ str_int (port self) ++ "/"
      ++ str_int (db self)
  end.

Definition with_password (self : t) (pw : option string) : t :=
  {| host := host self; port := port self; db := db self; password := pw |}.

End RedisSettings.

(** [is_development()] and [is_production()] read the global [settings]. *)
Definition is_development (st : Settings) : bool :=
  String.eqb (environment st) "development".

Definition is_production (st : Settings) : bool :=
  String.eqb (environment st) "production".

(** ** src/main.py: configure_logging

    The logger is [loguru]'s: what it holds is the list of its handlers, in
    the order they were added.  [logger.remove()] without an argument takes
    them all out.  [logger.add(...)] puts one more in, unless the library
    refuses it (a level name it does not know, a sink it cannot open), in
    which case it raises and the handlers stay as they were; [refuses] is
    the library's verdict. *)
Module Logging.

Inductive Sink : Type :=
| Stdout
| FileSink (path : string).

Record Handler : Type := {
  sink : Sink;
  level : string;
  serialize : bool;
  format : option string;
  rotation : option string;
  retention : option string;
  backtrace : bool;
  diagnose : bool
}.

Definition logger_remove (handlers : list Handler) : list Handler := [].

Definition logger_add (refuses : Handler -> option exn) (h : Handler)
    (handlers : list Handler) : result unit * list Handler :=
  match refuses h with
  | None => (Normal tt, handlers ++ [h])
  | Some e => (Raise e, handlers)
  end.

Definition console_format : string :=
  "<green>{time:YYYY-MM-DD HH:mm:ss}</green> | <level>{level: <8}</level> | <cyan>{name}</cyan>:<cyan>{function}</cyan>:<cyan>{line}</cyan> - <level>{message}</level>".

Definition console (st : Settings) : Handler :=
  if String.eqb (log_format st) "json"
  then {| sink := Stdout; level := log_level st; serialize := true;
          format := None; rotation := None; retention := None;
          backtrace := true; diagnose := true |}
  else {| sink := Stdout; level := log_level st; serialize := false;
          format := Some console_format; rotation := None; retention := None;
          backtrace := true; diagnose := true |}.

Definition file (st : Settings) : Handler :=
  {| sink := FileSink "logs/app_{time:YYYY-MM-DD}.log";
     level := log_level st; serialize := false; format := None;
     rotation := Some "1 day"; retention := Some "30 days";
     backtrace := true; diagnose := true |}.

Definition configure_logging (refuses : Handler -> option exn) (st : Settings)
    (handlers : list Handler) : result unit * list Handler :=
  let handlers := logger_remove handlers in
  match logger_add refuses (console st) handlers with
  | (Normal _, handlers) => logger_add refuses (file st) handlers
  | (Raise e, handlers) => (Raise e, handlers)
  end.

End Logging.

(** ** What a run of startup has made

    The objects the calls of a trace returned: the tasks [create_task]
    returned, in order, and the services the constructors returned. *)

Definition task_of {X} (c : call X) : X -> option Task :=
  match c in call T return T -> option Task with
  | create_task _ _ => fun t => Some t
  | _ => fun _ => None
  end.

Definition sensor_of {X} (c : call X) : X -> option SensorSimulator :=
  match c in call T return T -> option SensorSimulator with
  | new_SensorSimulator _ => fun s => Some s
  | _ => fun _ => None
  end.

Definition processor_of {X} (c : call X) : X -> option DataProcessor :=
  match c in call T return T -> option DataProcessor with
  | new_DataProcessor _ => fun p => Some p
  | _ => fun _ => None
  end.

Fixpoint created_tasks (tr : list event) : list Task :=
  match tr with
  | [] => []
  | Ev c (Returned x) :: rest =>
      match task_of c x with
      | Some t => t :: created_tasks rest
      | None => created_tasks rest
      end
  | _ :: rest => created_tasks rest
  end.

Fixpoint constructed_sensor (tr : list event) : option SensorSimulator :=
  match tr with
  | [] => None
  | Ev c (Returned x) :: rest =>
      match sensor_of c x with
      | Some s => Some s
      | None => constructed_sensor rest
      end
  | _ :: rest => constructed_sensor rest
  end.

Fixpoint constructed_processor (tr : list event) : option DataProcessor :=
  match tr with
  | [] => None
  | Ev c (Returned x) :: rest =>
      match processor_of c x with
      | Some p => Some p
      | None => constructed_processor rest
      end
  | _ :: rest => constructed_processor rest
  end.

(** [self] after a run of [startup] with trace [tr]: each service the run
    constructed takes the place of the one held, each task it created is
    appended, and nothing else is written. *)
Definition state_after (self : Application) (tr : list event) : Application :=
  {| settings := settings self;
     sensor_simulator :=
       match constructed_sensor tr with
       | Some s => Some s
       | None => sensor_simulator self
       end;
     data_processor :=
       match constructed_processor tr with
       | Some p => Some p
       | None => data_processor self
       end;
     background_tasks := background_tasks self ++ created_tasks tr |}.

(** The log line an exception gets before it leaves [startup]: one when it
    derives from [Exception], none otherwise. *)
Definition startup_error_log (e : exn) : list event :=
  if is_Exception e
  then [Ev (logger_error (startup_failed e)) (Returned tt)]
  else [].

(** ** The contract of the collaborators

    What the lifecycle specification asks of the services and what
    [asyncio] gives for tasks: [cancel()] returns; awaiting a cancelled task
    returns, or raises [CancelledError], or raises the error the task ended
    with; [stop()] can be called again and comes back, with an error
    deriving from [Exception] at worst. *)
Definition ends_well {X} (r : reply X) : Prop :=
  (exists x, r = Returned x) \/ (exists cls msg, r = Raised (Exception cls msg)).

Definition keeps_contract (E : Env) : Prop :=
  (forall t w, exists b, fst (Task_cancel E t w) = Returned b) /\
  (forall t w, fst (Task_await E t w) = Raised CancelledError \/
               ends_well (fst (Task_await E t w))) /\
  (forall s w, ends_well (fst (SensorSimulator_stop E s w))) /\
  (forall p w, ends_well (fst (DataProcessor_stop E p w))).

(** ** More laboratory set-ups *)

(** The call [self.sensor_simulator.start()] itself raises. *)
Definition start_refused : Env :=
  {| World := Lab.Plant;
     SensorSimulator_new := SensorSimulator_new (Lab.env Lab.nominal);
     DataProcessor_new := DataProcessor_new (Lab.env Lab.nominal);
     SensorSimulator_start := fun _ w =>
       (Raised (Exception "RuntimeError" "config missing"), Lab.bump w);
     DataProcessor_start := DataProcessor_start (Lab.env Lab.nominal);
     asyncio_create_task := asyncio_create_task (Lab.env Lab.nominal);
     Task_cancel := Task_cancel (Lab.env Lab.nominal);
     Task_await := Task_await (Lab.env Lab.nominal);
     SensorSimulator_stop := SensorSimulator_stop (Lab.env Lab.nominal);
     DataProcessor_stop := DataProcessor_stop (Lab.env Lab.nominal);
     SensorSimulator_is_running := SensorSimulator_is_running (Lab.env Lab.nominal);
     DataProcessor_is_running := DataProcessor_is_running (Lab.env Lab.nominal) |}.

(** [create_task] fails for the sensor simulator. *)
Definition sensor_spawn_fails : Lab.Script :=
  {| Lab.sensor_ctor := Returned tt;
     Lab.processor_ctor := Returned tt;
     Lab.spawn := fun name =>
       if String.eqb name "sensor_simulator"
       then Raised (Exception "RuntimeError" "config missing")
       else Returned tt;
     Lab.eager := true;
     Lab.task_awaited := fun _ => Raised CancelledError;
     Lab.sensor_stopped := fun _ => Returned tt;
     Lab.processor_stopped := Returned tt |}.

(** The [start()] coroutine of the sensor simulator finds its configuration
    missing once its task runs: the task ends with a [StartupError], which
    awaiting it raises. *)
Definition sensor_task_fails : Lab.Script :=
  {| Lab.sensor_ctor := Returned tt;
     Lab.processor_ctor := Returned tt;
     Lab.spawn := fun _ => Returned tt;
     Lab.eager := false;
     Lab.task_awaited := fun t =>
       match t with
       | TaskObj 3 => Raised (Exception "StartupError" "config missing")
       | _ => Raised CancelledError
       end;
     Lab.sensor_stopped := fun _ => Returned tt;
     Lab.processor_stopped := Returned tt |}.

(** ** Lists and traces *)

Ltac reply_case :=
  match goal with
  | |- context [let (_, _) := ?x in _] =>
      destruct x as [[? | [ | ? ? | ? ? ] | ] ?] eqn:?; cbn
  end.

Lemma prefix_nil {A} (l : list A) : prefix [] l.
Proof. exists l; reflexivity. Qed.

Lemma prefix_refl {A} (l : list A) : prefix l l.
Proof. exists []; now rewrite app_nil_r. Qed.

Lemma prefix_cons {A} (a : A) l1 l2 : prefix l1 l2 -> prefix (a :: l1) (a :: l2).
Proof. intros [rest ->]. exists rest; reflexivity. Qed.

Lemma prefix_app {A} (l l1 l2 : list A) : prefix l1 l2 -> prefix (l ++ l1) (l ++ l2).
Proof. intros [rest ->]. exists rest; now rewrite app_assoc. Qed.

Lemma prefix_app_r {A} (l1 l2 l3 : list A) : prefix l1 l2 -> prefix l1 (l2 ++ l3).
Proof. intros [rest ->]. exists (rest ++ l3); now rewrite app_assoc. Qed.

Lemma ends_with_refl {A} (l : list A) : ends_with l l.
Proof. exists []; reflexivity. Qed.

Lemma ends_with_cons {A} (a : A) l tail : ends_with l tail -> ends_with (a :: l) tail.
Proof. intros [pre ->]. exists (a :: pre); reflexivity. Qed.

Lemma ends_with_app {A} (l1 l2 tail : list A) :
  ends_with l2 tail -> ends_with (l1 ++ l2) tail.
Proof. intros [pre ->]. exists (l1 ++ pre); now rewrite app_assoc. Qed.

Ltac ends :=
  rewrite <- ?app_assoc; cbn [app];
  repeat first [apply ends_with_refl | apply ends_with_cons | apply ends_with_app].

Lemma all_before_app_l p q l1 l2 :
  forallb (fun ev => negb (q ev)) l1 = true ->
  all_before p q (l1 ++ l2) = all_before p q l2.
Proof.
  induction l1 as [| ev l1 IH]; cbn; [reflexivity |].
  intros [Hq Hall]%andb_prop. apply negb_true_iff in Hq. rewrite Hq. now apply IH.
Qed.

Lemma all_before_none p q l :
  forallb (fun ev => negb (q ev)) l = true -> all_before p q l = true.
Proof.
  intros H. rewrite <- (app_nil_r l). now rewrite all_before_app_l.
Qed.

Lemma quiet_raised ev e :
  quiet ev = true -> raised ev = Some e -> e = CancelledError.
Proof.
  destruct ev as [X c [x | e' |]]; cbn; try discriminate.
  destruct c; try discriminate. destruct e'; try discriminate. congruence.
Qed.

Lemma loud_not_benign ev e :
  raised ev = Some e -> quiet ev = false -> is_Exception e = false ->
  benign ev = false.
Proof.
  destruct ev as [X c [x | e' |]]; cbn; try discriminate.
  intros [= ->] Hq He. destruct e; destruct c; cbn in *; congruence.
Qed.

Lemma unanswered_not_benign ev : never_answered ev = true -> benign ev = false.
Proof. destruct ev as [X c [x | e' |]]; cbn; congruence. Qed.

Lemma In_quiet l ev e :
  forallb quiet l = true -> In ev l -> raised ev = Some e -> is_Exception e = true -> False.
Proof.
  intros Hall Hin Hr He. rewrite forallb_forall in Hall.
  rewrite (quiet_raised ev e (Hall ev Hin) Hr) in He. discriminate.
Qed.

Lemma quiet_app l r : forallb quiet (l ++ r) = forallb quiet l && forallb quiet r.
Proof. apply forallb_app. Qed.

Lemma unanswered_not_quiet ev : never_answered ev = true -> quiet ev = false.
Proof. destruct ev as [X c [x | e |]]; destruct c; cbn; congruence. Qed.

Lemma loop_has_no_stop l :
  forallb (fun ev => is_cancel ev || is_await ev) l = true ->
  forallb (fun ev => negb (is_stop ev)) l = true.
Proof.
  rewrite !forallb_forall. intros H ev Hin. specialize (H ev Hin).
  destruct ev as [X c r]; destruct c; cbn in *; congruence.
Qed.

Lemma loop_has_no_log l r :
  forallb (fun ev => is_cancel ev || is_await ev) l = true ->
  filter (fun ev => negb (is_log ev)) (l ++ r) =
  l ++ filter (fun ev => negb (is_log ev)) r.
Proof.
  induction l as [| ev l IH]; cbn; [reflexivity |].
  intros [Hk Hall]%andb_prop. rewrite (IH Hall).
  destruct ev as [X c a]; destruct c; cbn in *; try discriminate; reflexivity.
Qed.

(** ** The laboratory at work *)

Example nominal_startup :
  exec (Lab.env Lab.nominal) startup Lab.app_instance Lab.power_on =
  {| final := Some (Normal tt, Lab.running_app);
     world := Lab.running_plant;
     trace :=
       [Ev (logger_info "🚀 Starting Environmental Monitor System") (Returned tt);
        Ev (new_SensorSimulator SensorSettings_default)
           (Returned (SensorSimulatorObj 0));
        Ev (new_DataProcessor Settings_default) (Returned (DataProcessorObj 1));
        Ev (sensor_start (SensorSimulatorObj 0)) (Returned (CoroutineObj 2));
        Ev (create_task (CoroutineObj 2) "sensor_simulator") (Returned (TaskObj 3));
        Ev (processor_start (DataProcessorObj 1)) (Returned (CoroutineObj 4));
        Ev (create_task (CoroutineObj 4) "data_processor") (Returned (TaskObj 5));
        Ev (logger_info "🔄 Background services started") (Returned tt);
        Ev (logger_info "✅ System startup complete") (Returned tt)] |}.
Proof. reflexivity. Qed.

Example nominal_shutdown :
  exec (Lab.env Lab.nominal) shutdown Lab.running_app Lab.running_plant =
  {| final := Some (Normal tt, Lab.running_app);
     world := {| Lab.fresh := 6; Lab.sensor_flag := false;
                 Lab.processor_flag := false; Lab.sensor_stops := 1 |};
     trace :=
       [Ev (logger_info "🛑 Shutting down Environmental Monitor System") (Returned tt);
        Ev (task_cancel (TaskObj 3)) (Returned true);
        Ev (await_task (TaskObj 3)) (Raised CancelledError);
        Ev (task_cancel (TaskObj 5)) (Returned true);
        Ev (await_task (TaskObj 5)) (Raised CancelledError);
        Ev (sensor_stop (SensorSimulatorObj 0)) (Returned tt);
        Ev (processor_stop (DataProcessorObj 1)) (Returned tt);
        Ev (logger_info "✅ Shutdown complete") (Returned tt)] |}.
Proof. reflexivity. Qed.

(** A task that ended with an error of its own: awaiting it raises the
    error, which is logged, and no [stop()] is called. *)
Example failed_task_skips_stop :
  trace (exec (Lab.env
                 {| Lab.sensor_ctor := Returned tt;
                    Lab.processor_ctor := Returned tt;
                    Lab.spawn := fun _ => Returned tt;
                    Lab.eager := true;
                    Lab.task_awaited := fun _ =>
                      Raised (Exception "ConnectionError" "broker down");
                    Lab.sensor_stopped := fun _ => Returned tt;
                    Lab.processor_stopped := Returned tt |})
           shutdown Lab.running_app Lab.running_plant) =
  [Ev (logger_info "🛑 Shutting down Environmental Monitor System") (Returned tt);
   Ev (task_cancel (TaskObj 3)) (Returned true);
   Ev (await_task (TaskObj 3)) (Raised (Exception "ConnectionError" "broker down"));
   Ev (logger_error "❌ Shutdown error: broker down") (Returned tt)].
Proof. reflexivity. Qed.

(** ** Runs of composed programs: lemmas *)

Section Runs.

Variable E : Env.

Lemma run_pbind {A B} (p : proc A) (f : A -> proc B) (w : World E) :
  run E (pbind p f) w = and_then (run E p w) (fun a w' => run E (f a) w').
Proof.
  revert w; induction p as [a | X c k IH]; intros w; cbn.
  - unfold and_then; cbn. destruct (run E (f a) w); reflexivity.
  - destruct (handle E c w) as [[x | e |] w']; cbn; try reflexivity;
      rewrite IH; unfold and_then, after; cbn;
      match goal with |- context [final (run E (k ?v) w')] =>
        destruct (final (run E (k v) w')); reflexivity end.
Qed.

Lemma exec_bind {A B} (m : M A) (f : A -> M B) self w :
  exec E (bind m f) self w =
  and_then (exec E m self w) (fun rs w' =>
    match fst rs with
    | Normal a => exec E (f a) (snd rs) w'
    | Raise e => done (Raise e, snd rs) w'
    end).
Proof.
  unfold exec, bind. rewrite run_pbind. unfold and_then.
  destruct (final (run E (m self) w)) as [[[a | e] s] |]; reflexivity.
Qed.

Lemma exec_try_except {A} (body : M A) handler self w :
  exec E (try_except body handler) self w =
  and_then (exec E body self w) (fun rs w' =>
    match fst rs with
    | Normal a => done (Normal a, snd rs) w'
    | Raise e =>
        match handler e with
        | Some h => exec E h (snd rs) w'
        | None => done (Raise e, snd rs) w'
        end
    end).
Proof.
  unfold exec, try_except. rewrite run_pbind. unfold and_then.
  destruct (final (run E (body self) w)) as [[[a | e] s] |]; cbn; try reflexivity.
  destruct (handler e); reflexivity.
Qed.

(** A run is blocked exactly when one of its calls was never answered, and
    that call is then the last of the trace. *)
Lemma run_blocked {R} (p : proc R) (w : World E) :
  final (run E p w) = None <-> existsb never_answered (trace (run E p w)) = true.
Proof.
  revert w; induction p as [a | X c k IH]; intros w; cbn.
  - split; discriminate.
  - destruct (handle E c w) as [[x | e |] w']; cbn; try apply IH.
    split; reflexivity.
Qed.

(** Every event of a trace is an answer the environment gave. *)
Lemma trace_from_env {R} (p : proc R) (w : World E) :
  Forall (fun ev => match ev with
                    | @Ev X c r => exists w0, fst (handle E c w0) = r
                    end) (trace (run E p w)).
Proof.
  revert w; induction p as [a | Y c k IH]; intros w; cbn; [constructor |].
  destruct (handle E c w) as [[x | e |] w'] eqn:Hh; cbn.
  all: constructor; [exists w; now rewrite Hh | try apply IH; constructor].
Qed.

End Runs.

(** ** shutdown *)

Section Shutdown.

Variable E : Env.

Lemma shutdown_eq :
  shutdown =
  (ext (logger_info "🛑 Shutting down Environmental Monitor System") ;;
   try_except
     (self <- get_self ;;
      for_each (background_tasks self) cancel_and_await ;; stop_services)
     shutdown_handler).
Proof. reflexivity. Qed.

Lemma exec_shutdown self w :
  exec E shutdown self w =
  after (Ev (logger_info "🛑 Shutting down Environmental Monitor System") (Returned tt))
    (and_then
       (and_then (exec E (for_each (background_tasks self) cancel_and_await) self w)
          (fun rs w' =>
             match fst rs with
             | Normal _ => exec E stop_services (snd rs) w'
             | Raise e => done (Raise e, snd rs) w'
             end))
       (fun rs w' =>
          match fst rs with
          | Normal a => done (Normal a, snd rs) w'
          | Raise e =>
              match shutdown_handler e with
              | Some h => exec E h (snd rs) w'
              | None => done (Raise e, snd rs) w'
              end
          end)).
Proof.
  rewrite shutdown_eq.
  change (exec E (ext (logger_info "🛑 Shutting down Environmental Monitor System") ;; ?m) self w)
    with (after (Ev (logger_info "🛑 Shutting down Environmental Monitor System") (Returned tt)) (exec E m self w)).
  f_equal. rewrite exec_try_except. f_equal.
  exact (exec_bind E (for_each (background_tasks self) cancel_and_await)
           (fun _ => stop_services) self w).
Qed.

Lemma loop_shape_cons self ev (r : run_result (result unit * Application) (World E)) :
  quiet ev = true -> is_cancel ev || is_await ev = true ->
  loop_shape E self r -> loop_shape E self (after ev r).
Proof.
  intros Hq Hk [Hall Hfin]. split; cbn.
  - now rewrite Hk, Hall.
  - destruct (final r) as [[[u | e] s'] |].
    + destruct Hfin as [-> Hquiet]. split; [reflexivity|]. now rewrite Hq, Hquiet.
    + destruct Hfin as [-> (pre & ev' & Htr & Hr & Hnq & Hpre)].
      split; [reflexivity|]. exists (ev :: pre), ev'. rewrite Htr. cbn.
      now rewrite Hq, Hpre.
    + destruct Hfin as (pre & ev' & Htr & Hn & Hpre).
      exists (ev :: pre), ev'. rewrite Htr. cbn. now rewrite Hq, Hpre.
Qed.

Lemma loop_run ts : forall self w,
  loop_shape E self (exec E (for_each ts cancel_and_await) self w).
Proof.
  induction ts as [| t ts IH]; intros self w.
  - cbn. split; cbn; auto.
  - change (for_each (t :: ts) cancel_and_await)
      with (cancel_and_await t ;; for_each ts cancel_and_await).
    rewrite exec_bind. unfold exec at 1, cancel_and_await. cbn.
    repeat reply_case.
    1, 2: refine (loop_shape_cons self (Ev (task_cancel t) _)
                    (after (Ev (await_task t) _) (exec E _ self _)) _ _
                    (loop_shape_cons self _ _ _ _ (IH self _))); reflexivity.
    all: split; cbn; [reflexivity |].
    all: try (split; [reflexivity |]).
    all: match goal with
         | |- context [?a :: ?b :: nil] => exists [a], b
         | |- context [?a :: nil] => exists [], a
         end; repeat split; reflexivity.
Qed.

(** The loop cancels and awaits the tasks one after the other, in the order
    of [background_tasks]. *)
Lemma loop_calls ts : forall self w,
  prefix (map the_call (trace (exec E (for_each ts cancel_and_await) self w)))
         (loop_plan ts) /\
  (forall u s', final (exec E (for_each ts cancel_and_await) self w) = Some (Normal u, s') ->
     map the_call (trace (exec E (for_each ts cancel_and_await) self w)) = loop_plan ts).
Proof.
  induction ts as [| t ts IH]; intros self w.
  - cbn. split; [apply prefix_nil | reflexivity].
  - change (for_each (t :: ts) cancel_and_await)
      with (cancel_and_await t ;; for_each ts cancel_and_await).
    rewrite exec_bind. unfold exec at 1 3 5, cancel_and_await. cbn.
    repeat reply_case.
    1, 2: destruct (IH self w1) as [Hp Hn]; split;
      [ apply (prefix_cons _ _ (_ :: _)), prefix_cons, Hp
      | intros u s' Hf; cbn; do 2 f_equal; apply (Hn u s' Hf) ].
    all: split; [| discriminate].
    all: cbn; repeat apply prefix_cons; apply prefix_nil.
Qed.

Ltac shutdown_cases self w :=
  rewrite ?exec_shutdown;
  let L := fresh "Hloop" in
  let C := fresh "Hcalls" in
  pose proof (loop_run (background_tasks self) self w) as L;
  pose proof (loop_calls (background_tasks self) self w) as C;
  destruct (exec E (for_each (background_tasks self) cancel_and_await) self w)
    as [[[[[] | [ | ? ? | ? ? ]] ?] |] ? ?];
  destruct L as [? L]; cbn in L, C |- *;
  [ destruct L as [-> ?];
    destruct self as [? [?|] [?|] ?];
    unfold exec, stop_services; cbn in *;
    repeat reply_case
  | destruct L as [-> (? & ? & -> & ? & ? & ?)]
  | destruct L as [-> (? & ? & -> & ? & ? & ?)]
  | destruct L as [-> (? & ? & -> & ? & ? & ?)]
  | destruct L as (? & ? & -> & ? & ?) ].

(** [shutdown] never writes an attribute of [self]. *)
Lemma shutdown_self self w res s' :
  final (exec E shutdown self w) = Some (res, s') -> s' = self.
Proof.
  shutdown_cases self w.
  all: cbn; intros; congruence.
Qed.

Lemma shutdown_no_Exception self w e s' :
  final (exec E shutdown self w) = Some (Raise e, s') -> is_Exception e = false.
Proof.
  shutdown_cases self w.
  all: cbn; intros [= <- <-] || discriminate.
  all: reflexivity.
Qed.

Lemma shutdown_benign self w :
  forallb benign (trace (exec E shutdown self w)) = true ->
  final (exec E shutdown self w) = Some (Normal tt, self).
Proof.
  shutdown_cases self w.
  all: cbn; try reflexivity.
  all: rewrite ?app_nil_r, ?forallb_app; cbn [forallb].
  all: try match goal with
           | Hr : raised ?ev = Some _, Hq : quiet ?ev = false |- _ =>
               rewrite (loud_not_benign ev _ Hr Hq eq_refl)
           | Hn : never_answered ?ev = true |- _ =>
               rewrite (unanswered_not_benign ev Hn)
           end.
  all: cbn; rewrite ?andb_false_r; intros; try discriminate.
Qed.

(** An exception deriving from [Exception] raised by a call of [shutdown]
    ends the run there: the error is logged and [shutdown] returns. *)
Lemma shutdown_logged self w ev e :
  In ev (trace (exec E shutdown self w)) -> raised ev = Some e ->
  is_Exception e = true ->
  final (exec E shutdown self w) = Some (Normal tt, self) /\
  ends_with (trace (exec E shutdown self w))
    [ev; Ev (logger_error (shutdown_error e)) (Returned tt)].
Proof.
  shutdown_cases self w.
  all: cbn; rewrite ?app_nil_r; intros Hin Hr He.
  all: repeat (rewrite in_app_iff in Hin || cbn [In] in Hin).
  all: repeat match goal with
              | H : _ \/ _ |- _ => destruct H
              | H : False |- _ => destruct H
              end.
  all: try (exfalso; eapply In_quiet; eassumption).
  all: subst ev; cbn in Hr; try discriminate.
  all: try (injection Hr as <-; cbn in He; try discriminate).
  all: try match goal with
           | Ha : raised ?x = Some ?a, Hb : raised ?x = Some ?b |- _ =>
               assert (b = a) by congruence; subst b; cbn in He
           | Hn : never_answered ?x = true, Hb : raised ?x = Some _ |- _ =>
               destruct x as [? ? [? | ? |]]; discriminate
           end; try discriminate.
  all: split; [reflexivity | ends].
Qed.

(** In a run of [shutdown] every cancel and every await comes before the
    first [stop()]. *)
Lemma shutdown_order self w :
  all_before (fun ev => is_cancel ev || is_await ev) is_stop
    (trace (exec E shutdown self w)) = true.
Proof.
  shutdown_cases self w.
  all: cbn in *; rewrite ?app_nil_r.
  all: try first [ rewrite all_before_app_l by (apply loop_has_no_stop; assumption)
             | rewrite <- app_assoc;
               rewrite all_before_app_l by (apply loop_has_no_stop; assumption) ].
  all: try reflexivity.
  all: apply all_before_none, loop_has_no_stop; assumption.
Qed.

(** The calls of a run of [shutdown], the logger left out, follow
    [shutdown_plan]; all of it when no call fails. *)
Lemma shutdown_calls self w :
  prefix (map the_call (calls (trace (exec E shutdown self w)))) (shutdown_plan self) /\
  (forallb quiet (trace (exec E shutdown self w)) = true ->
   map the_call (calls (trace (exec E shutdown self w))) = shutdown_plan self).
Proof.
  shutdown_cases self w.
  all: destruct Hcalls as [Hp Hc]; try specialize (Hc tt _ eq_refl).
  all: unfold shutdown_plan; cbn in *; rewrite ?app_nil_r.
  all: first [ rewrite loop_has_no_log by assumption
             | rewrite <- app_assoc, loop_has_no_log by assumption
             | rewrite <- (app_nil_r (_ ++ [_])), loop_has_no_log by assumption ].
  all: rewrite ?quiet_app; cbn; rewrite ?map_app, ?app_nil_r, ?andb_false_r.
  all: try rewrite Hc.
  all: split; [| try discriminate; try reflexivity].
  all: try (apply prefix_app; cbn; repeat apply prefix_cons; apply prefix_nil).
  all: try apply prefix_refl.
  all: try (rewrite <- map_app; apply prefix_app_r, Hp).
  all: try match goal with
           | Hq : quiet ?x = false |- _ => rewrite Hq
           | Hn : never_answered ?x = true |- _ => rewrite (unanswered_not_quiet x Hn)
           end; rewrite ?andb_false_r; discriminate.
Qed.

(** [shutdown] calls nothing but the logger, [cancel()], [await] and
    [stop()]. *)
Lemma shutdown_kinds self w :
  forallb (fun ev => is_log ev || is_cancel ev || is_await ev || is_stop ev)
    (trace (exec E shutdown self w)) = true.
Proof.
  assert (Hloop : forall l,
    forallb (fun ev => is_cancel ev || is_await ev) l = true ->
    forallb (fun ev => is_log ev || is_cancel ev || is_await ev || is_stop ev) l = true).
  { intros l. rewrite !forallb_forall. intros H ev Hin. specialize (H ev Hin).
    destruct ev as [X c r]; destruct c; cbn in *; congruence. }
  shutdown_cases self w.
  all: match goal with
       | H : forallb (fun ev => is_cancel ev || is_await ev) _ = true |- _ =>
           cbn in H; apply Hloop in H;
           cbn; rewrite ?app_nil_r;
           first [ rewrite H
                 | rewrite forallb_app, H
                 | rewrite <- app_assoc, forallb_app, H ];
           reflexivity
       end.
Qed.

(** [shutdown] returns, one way or the other, when every cancel, await and
    [stop()] is answered. *)
Lemma shutdown_returns self w :
  (forall t w0, fst (Task_cancel E t w0) <> Never) ->
  (forall t w0, fst (Task_await E t w0) <> Never) ->
  (forall s w0, fst (SensorSimulator_stop E s w0) <> Never) ->
  (forall p w0, fst (DataProcessor_stop E p w0) <> Never) ->
  final (exec E shutdown self w) <> None.
Proof.
  intros Hc Ha Hs Hp Hnone.
  apply run_blocked in Hnone. apply existsb_exists in Hnone.
  destruct Hnone as (ev & Hin & Hnever).
  pose proof (trace_from_env E (shutdown self) w) as Henv.
  rewrite Forall_forall in Henv. specialize (Henv ev Hin).
  pose proof (shutdown_kinds self w) as Hk.
  rewrite forallb_forall in Hk. specialize (Hk ev Hin).
  destruct ev as [X c [x | e |]]; try discriminate.
  destruct Henv as [w0 Hw0].
  destruct c; cbn in Hk, Hw0; try discriminate.
  - exact (Hc _ _ Hw0).
  - exact (Ha _ _ Hw0).
  - exact (Hs _ _ Hw0).
  - exact (Hp _ _ Hw0).
Qed.

(** An exception that comes out of [shutdown] was raised by one of its
    calls. *)
Lemma shutdown_raise self w e s' :
  final (exec E shutdown self w) = Some (Raise e, s') ->
  exists ev, In ev (trace (exec E shutdown self w)) /\ raised ev = Some e.
Proof.
  shutdown_cases self w.
  all: cbn; intros [= <- <-] || discriminate.
  all: match goal with
       | Hr : raised ?x = Some ?a |- exists ev, _ /\ raised ev = Some ?a =>
           exists x; split; [| exact Hr]
       | |- context [Ev ?c (Raised ?a)] =>
           exists (Ev c (Raised a)); split; [| reflexivity]
       end.
  all: rewrite ?app_nil_r; right; apply in_or_app; right; cbn; tauto.
Qed.

(** An exception that does not derive from [Exception], raised by a call
    of [shutdown], comes out of it as it is, unlogged, the [CancelledError]
    of an awaited task apart; nothing is called after it. *)
Lemma shutdown_propagates self w ev e :
  In ev (trace (exec E shutdown self w)) ->
  raised ev = Some e ->
  is_Exception e = false ->
  quiet ev = false ->
  final (exec E shutdown self w) = Some (Raise e, self) /\
  ends_with (trace (exec E shutdown self w)) [ev].
Proof.
  shutdown_cases self w.
  all: cbn; rewrite ?app_nil_r; intros Hin Hr He Hq.
  all: repeat (rewrite in_app_iff in Hin || cbn [In] in Hin).
  all: repeat match goal with
              | H : _ \/ _ |- _ => destruct H
              | H : False |- _ => destruct H
              end.
  all: try (exfalso;
            match goal with
            | Hall : forallb quiet ?l = true, Hi : In ?v ?l |- _ =>
                rewrite forallb_forall in Hall;
                rewrite (Hall v Hi) in Hq; discriminate Hq
            end).
  all: subst ev; cbn in Hr; try discriminate.
  all: try (injection Hr as <-; cbn in He; try discriminate).
  all: try match goal with
           | Ha : raised ?x = Some ?a, Hb : raised ?x = Some ?b |- _ =>
               assert (b = a) by congruence; subst b; cbn in He
           | Hn : never_answered ?x = true, Hb : raised ?x = Some _ |- _ =>
               destruct x as [? ? [? | ? |]]; discriminate
           end; try discriminate.
  all: split; [reflexivity | ends].
Qed.

End Shutdown.

(** With collaborators that keep their contract, nothing [shutdown] runs
    into is worse than an error deriving from [Exception]. *)
Lemma contract_shutdown_benign (E : Env) (self : Application) (w : World E) :
  keeps_contract E ->
  forallb benign (trace (exec E shutdown self w)) = true.
Proof.
  intros (Hc & Ha & Hs & Hp). rewrite forallb_forall. intros ev Hin.
  pose proof (trace_from_env E (shutdown self) w) as Henv.
  rewrite Forall_forall in Henv. specialize (Henv ev Hin).
  pose proof (shutdown_kinds E self w) as Hk.
  rewrite forallb_forall in Hk. specialize (Hk ev Hin).
  destruct ev as [X c r]. destruct Henv as [w0 Hw0].
  destruct c; cbn in Hk, Hw0; try discriminate Hk.
  - destruct (Hc t w0) as [b Hb]. rewrite Hb in Hw0. now subst r.
  - destruct (Ha t w0) as [Hcan | [[x Hx] | (cls & msg & Hx)]];
      rewrite <- Hw0; [rewrite Hcan | rewrite Hx | rewrite Hx]; reflexivity.
  - destruct (Hs s w0) as [[x Hx] | (cls & msg & Hx)];
      rewrite <- Hw0, Hx; reflexivity.
  - destruct (Hp p w0) as [[x Hx] | (cls & msg & Hx)];
      rewrite <- Hw0, Hx; reflexivity.
  - now subst r.
  - now subst r.
Qed.

(** ** startup *)

Section Startup.

Variable E : Env.

Ltac startup_cases self :=
  unfold exec, startup; destruct self as [? ? ? ?]; cbn;
  repeat reply_case.

(** [startup] stops, cancels and awaits nothing. *)
Lemma startup_no_stop self w :
  forallb (fun ev => negb (is_stop ev || is_cancel ev || is_await ev))
    (trace (exec E startup self w)) = true.
Proof. startup_cases self; reflexivity. Qed.

(** In a run of [startup] the two constructors come before any spawn. *)
Lemma startup_order self w :
  all_before is_construct is_spawn (trace (exec E startup self w)) = true.
Proof. startup_cases self; reflexivity. Qed.

(** When [startup] raises, the exception is the one its last call raised;
    the calls before it all returned and none follows.  An exception
    deriving from [Exception] is logged before it is raised again. *)
Lemma startup_raise self w e s' :
  final (exec E startup self w) = Some (Raise e, s') ->
  exists pre ev,
    calls (trace (exec E startup self w)) = pre ++ [ev] /\
    raised ev = Some e /\
    forallb answered pre = true /\
    (is_Exception e = true ->
     ends_with (trace (exec E startup self w))
       [ev; Ev (logger_error (startup_failed e)) (Returned tt)]).
Proof.
  startup_cases self.
  all: intros [= <- <-] || discriminate.
  all: match goal with
       | |- exists pre ev, ?L = pre ++ [ev] /\ _ =>
           exists (removelast L), (last L (Ev (logger_info "") Never))
       end; cbn [removelast last app].
  all: repeat split; try reflexivity; try discriminate.
  all: intros _; ends.
Qed.

(** When [startup] returns, both services are set and the two new tasks
    are at the end of [background_tasks], after those that were there. *)
Lemma startup_normal self w s' :
  final (exec E startup self w) = Some (Normal tt, s') ->
  exists s p c1 c2 t1 t2,
    s' = {| settings := settings self; sensor_simulator := Some s;
            data_processor := Some p;
            background_tasks := background_tasks self ++ [t1; t2] |} /\
    map the_call (calls (trace (exec E startup self w))) =
      startup_plan (settings self) s p c1 c2 /\
    forallb answered (trace (exec E startup self w)) = true.
Proof.
  startup_cases self.
  all: intros [= <-] || discriminate.
  do 6 eexists. rewrite <- app_assoc. repeat split.
Qed.

(** The first thing [startup] does after its log line, whatever the state,
    is to construct the sensor simulator. *)
Lemma startup_first_call self w :
  exists r rest,
    trace (exec E startup self w) =
    Ev (logger_info "🚀 Starting Environmental Monitor System") (Returned tt)
    :: Ev (new_SensorSimulator (sensors (settings self))) r :: rest.
Proof. startup_cases self; do 2 eexists; reflexivity. Qed.

(** What [startup] may have written when it ends, normally or not. *)
Lemma startup_state self w res s' :
  final (exec E startup self w) = Some (res, s') ->
  settings s' = settings self /\
  prefix (background_tasks self) (background_tasks s') /\
  (sensor_simulator self <> None -> sensor_simulator s' <> None) /\
  (data_processor self <> None -> data_processor s' <> None) /\
  (background_tasks s' = background_tasks self \/
   (sensor_simulator s' <> None /\ data_processor s' <> None)).
Proof.
  startup_cases self.
  all: intros [= <- <-] || discriminate.
  all: cbn; repeat split; try discriminate; try tauto.
  all: try apply prefix_refl.
  all: try (rewrite <- ?app_assoc; eexists; reflexivity).
  all: try (left; reflexivity).
  all: right; split; discriminate.
Qed.

(** When the constructor of the data processor fails, nothing has been
    spawned and [background_tasks] is as it was. *)
Lemma startup_second_ctor self w :
  existsb processor_ctor_failed (trace (exec E startup self w)) = true ->
  forallb (fun ev => negb (is_spawn ev)) (trace (exec E startup self w)) = true /\
  forall res s',
    final (exec E startup self w) = Some (res, s') ->
    background_tasks s' = background_tasks self.
Proof.
  startup_cases self.
  all: intros Hf; try discriminate Hf.
  all: split; [reflexivity |].
  all: intros res s' [= <- <-]; reflexivity.
Qed.

Lemma startup_raise_origin self w e s' :
  final (exec E startup self w) = Some (Raise e, s') ->
  exists ev, In ev (trace (exec E startup self w)) /\ raised ev = Some e.
Proof.
  intros Hf. destruct (startup_raise self w e s' Hf) as (pre & ev & Hc & Hr & _).
  exists ev. split; [| exact Hr].
  assert (Hin : In ev (calls (trace (exec E startup self w)))).
  { rewrite Hc. apply in_or_app. right. now left. }
  unfold calls in Hin. apply filter_In in Hin. tauto.
Qed.

(** The state [startup] leaves, however it ends, is [self] with what the
    run made: nothing is taken back. *)
Lemma startup_final_state self w res s' :
  final (exec E startup self w) = Some (res, s') ->
  s' = state_after self (trace (exec E startup self w)).
Proof.
  startup_cases self.
  all: intros [= <- <-] || discriminate.
  all: unfold state_after; cbn; rewrite <- ?app_assoc, ?app_nil_r; reflexivity.
Qed.

(** A call of [startup] that raises ends it: the exception leaves
    [startup] as it is, after its log line when it has one, and no other
    call is made. *)
Lemma startup_failure self w ev e :
  In ev (trace (exec E startup self w)) ->
  raised ev = Some e ->
  (exists s', final (exec E startup self w) = Some (Raise e, s')) /\
  ends_with (trace (exec E startup self w)) (ev :: startup_error_log e).
Proof.
  startup_cases self.
  all: intros Hin Hr; cbn [In] in Hin.
  all: repeat match goal with
              | H : _ \/ _ |- _ => destruct H
              | H : False |- _ => destruct H
              end.
  all: subst ev; cbn in Hr; try discriminate.
  all: injection Hr as <-.
  all: split; [eexists; reflexivity | unfold startup_error_log; cbn; ends].
Qed.

(** [startup] raises only what one of its calls raised: when each of them
    returns, it returns. *)
Lemma startup_answered self w :
  forallb answered (trace (exec E startup self w)) = true ->
  final (exec E startup self w) =
  Some (Normal tt, state_after self (trace (exec E startup self w))).
Proof.
  startup_cases self.
  all: intros H; try discriminate H.
  unfold state_after; cbn. now rewrite <- app_assoc.
Qed.

End Startup.

(** ** Reachable states *)

(** Tasks are only ever appended once both services are set, and nothing
    unsets a service. *)
Lemma reachable_tasks_services (E : Env) (self : Application) :
  reachable E self ->
  background_tasks self <> [] ->
  sensor_simulator self <> None /\ data_processor self <> None.
Proof.
  induction 1 as [st | self w res self' Hr IH Hf | self w res self' Hr IH Hf].
  - intros Hne. now contradiction Hne.
  - destruct (startup_state E self w res self' Hf)
      as (_ & _ & Hs & Hp & [Hsame | Hboth]); [| intros _; exact Hboth].
    rewrite Hsame. intros Hne. destruct (IH Hne) as [Hs' Hp']. auto.
  - rewrite (shutdown_self E self w res self' Hf). exact IH.
Qed.

(** ** The health endpoint *)

Section Health.

Variable E : Env.

(** [health_check] always returns: it reads at most the two [is_running]
    attributes, writes nothing, and its status is the constant "healthy". *)
Lemma exec_health_check st self w :
  exists tr,
    exec E (health_check st) self w =
    {| final := Some (Normal
         {| status := "healthy";
            health_environment := environment st;
            health_version := version (api st);
            services :=
              {| sensors_running :=
                   match sensor_simulator self with
                   | Some s => SensorSimulator_is_running E s w
                   | None => false
                   end;
                 processor_running :=
                   match data_processor self with
                   | Some p => DataProcessor_is_running E p w
                   | None => false
                   end |} |}, self);
       world := w; trace := tr |}.
Proof.
  unfold exec, health_check. destruct self as [? [s |] [p |] ?]; cbn;
    eexists; reflexivity.
Qed.

End Health.

(** ** The claims *)

(** C1 (amended).  After a successful [startup()] both services are set, and
    the status of the health snapshot is "healthy" whatever the [is_running]
    probes answer, then and at any later time: it is "healthy" when every
    service is running and also when one is not, never "degraded".  The
    entries of [services] are the two [is_running] attributes. *)
Theorem health_status_is_constant (E : Env) (st : Settings)
    (self0 self : Application) (w0 w : World E) :
  started E self0 w0 = Some (Normal tt, self, w) ->
  forall w1 : World E,
  exists s p,
    sensor_simulator self = Some s /\ data_processor self = Some p /\
    final (exec E (health_check st) self w1) =
    Some (Normal
      {| status := "healthy";
         health_environment := environment st;
         health_version := version (api st);
         services :=
           {| sensors_running := SensorSimulator_is_running E s w1;
              processor_running := DataProcessor_is_running E p w1 |} |},
      self).
Proof.
  unfold started. intros Hs w1.
  destruct (final (exec E startup self0 w0)) as [[res self'] |] eqn:Hf;
    [| discriminate].
  injection Hs as -> -> _.
  destruct (startup_normal E self0 w0 self Hf)
    as (s & p & c1 & c2 & t1 & t2 & -> & _ & _).
  exists s, p. split; [reflexivity |]. split; reflexivity.
Qed.

Lemma health_status_is_constant_witness :
  started (Lab.env Lab.lazy) Lab.app_instance Lab.power_on =
    Some (Normal tt, Lab.running_app, Lab.waiting_plant) /\
  exists s p,
    sensor_simulator Lab.running_app = Some s /\
    data_processor Lab.running_app = Some p /\
    final (exec (Lab.env Lab.lazy) (health_check Settings_default)
             Lab.running_app Lab.waiting_plant) =
    Some (Normal
      {| status := "healthy";
         health_environment := "development";
         health_version := "1.0.0";
         services :=
           {| sensors_running :=
                SensorSimulator_is_running (Lab.env Lab.lazy) s Lab.waiting_plant;
              processor_running :=
                DataProcessor_is_running (Lab.env Lab.lazy) p Lab.waiting_plant |} |},
      Lab.running_app).
Proof.
  split; [reflexivity |].
  exact (health_status_is_constant (Lab.env Lab.lazy) Settings_default
           Lab.app_instance Lab.running_app Lab.power_on Lab.waiting_plant
           eq_refl Lab.waiting_plant).
Defined.

(** C1, as stated, fails: right after [startup()], before the two tasks have
    run, no service reports [is_running], and the status is "healthy", not
    "degraded". *)
Lemma health_status_tracks_probes_fails :
  ~ status_tracks_probes (Lab.env Lab.lazy) Settings_default
      Lab.app_instance Lab.power_on.
Proof.
  intros H.
  destruct (H Lab.running_app _ eq_refl _ _ eq_refl) as [[Hh _] _].
  specialize (Hh eq_refl). discriminate Hh.
Qed.

(** C2 (amended).  There is no lifecycle guard and no
    [InvalidLifecycleTransition].  [shutdown()] before any [startup()]
    returns normally, calls nothing but the logger and leaves the state
    unchanged.  [startup()] in any state goes on to construct the sensor
    simulator.  When [startup()] or [shutdown()] raises, the exception is one
    that a call on a collaborator raised. *)
Theorem no_lifecycle_guard (E : Env) :
  (forall st w,
     exec E shutdown (Application_init st) w =
     {| final := Some (Normal tt, Application_init st);
        world := w;
        trace :=
          [Ev (logger_info "🛑 Shutting down Environmental Monitor System")
              (Returned tt);
           Ev (logger_info "✅ Shutdown complete") (Returned tt)] |}) /\
  (forall self w,
     exists r rest,
       trace (exec E startup self w) =
       Ev (logger_info "🚀 Starting Environmental Monitor System") (Returned tt)
       :: Ev (new_SensorSimulator (sensors (settings self))) r :: rest) /\
  (forall self w e s',
     final (exec E startup self w) = Some (Raise e, s') ->
     exists ev, In ev (trace (exec E startup self w)) /\ raised ev = Some e) /\
  (forall self w e s',
     final (exec E shutdown self w) = Some (Raise e, s') ->
     exists ev, In ev (trace (exec E shutdown self w)) /\ raised ev = Some e).
Proof.
  split; [reflexivity |].
  split; [apply startup_first_call |].
  split; [apply startup_raise_origin | apply shutdown_raise].
Qed.

Lemma no_lifecycle_guard_witness :
  (exists ev,
     In ev (trace (exec (Lab.env Lab.config_missing) startup
                     Lab.app_instance Lab.power_on)) /\
     raised ev = Some (Exception "ValueError" "config missing")) /\
  (exists ev,
     In ev (trace (exec (Lab.env Lab.stop_leaks_cancellation) shutdown
                     Lab.running_app Lab.running_plant)) /\
     raised ev = Some CancelledError).
Proof.
  split.
  - exact (proj1 (proj2 (proj2 (no_lifecycle_guard (Lab.env Lab.config_missing))))
             Lab.app_instance Lab.power_on _ _ eq_refl).
  - exact (proj2 (proj2 (proj2 (no_lifecycle_guard (Lab.env Lab.stop_leaks_cancellation))))
             Lab.running_app Lab.running_plant _ _ eq_refl).
Defined.

(** C2, as stated, fails: [shutdown()] on a fresh application returns
    normally, and a second [startup()] runs again and returns normally. *)
Lemma lifecycle_guard_fails :
  ~ shutdown_guarded (Lab.env Lab.nominal) Settings_default Lab.power_on /\
  ~ startup_guarded (Lab.env Lab.nominal) Lab.app_instance Lab.power_on.
Proof.
  split.
  - intros [msg H]. discriminate H.
  - intros H. destruct (H _ _ eq_refl) as [msg Hm]. discriminate Hm.
Qed.

(** C3 (amended).  [startup()] has no rollback: it invokes no [stop()] and
    cancels nothing.  When a constructor, a [start()] or a [create_task]
    fails, [startup()] stops there: no further step is run, the failure is
    logged when it derives from [Exception], and the exception is raised
    again as it is.  Conversely an exception that leaves [startup()] is the
    one its last call raised, all the calls before it having returned.  The
    state [startup()] leaves, however it ends, is the state before the call
    with the services this call constructed and the tasks this call created
    in place: a task already created stays in [background_tasks]. *)
Theorem startup_aborts_without_rollback (E : Env) (self : Application) (w : World E) :
  forallb (fun ev => negb (is_stop ev || is_cancel ev || is_await ev))
    (trace (exec E startup self w)) = true /\
  (forall e s',
     final (exec E startup self w) = Some (Raise e, s') ->
     exists pre ev,
       calls (trace (exec E startup self w)) = pre ++ [ev] /\
       raised ev = Some e /\
       forallb answered pre = true /\
       (is_Exception e = true ->
        ends_with (trace (exec E startup self w))
          [ev; Ev (logger_error (startup_failed e)) (Returned tt)])) /\
  (forall ev e,
     In ev (trace (exec E startup self w)) ->
     raised ev = Some e ->
     (exists s', final (exec E startup self w) = Some (Raise e, s')) /\
     ends_with (trace (exec E startup self w)) (ev :: startup_error_log e)) /\
  (forall res s',
     final (exec E startup self w) = Some (res, s') ->
     s' = state_after self (trace (exec E startup self w))).
Proof.
  split; [apply startup_no_stop |].
  split; [apply startup_raise |].
  split; [apply startup_failure | apply startup_final_state].
Qed.

Lemma startup_aborts_without_rollback_witness :
  (exists pre ev,
     calls (trace (exec (Lab.env Lab.spawn_fails) startup
                     Lab.app_instance Lab.power_on)) = pre ++ [ev] /\
     raised ev = Some (Exception "RuntimeError" "no running event loop") /\
     forallb answered pre = true /\
     (is_Exception (Exception "RuntimeError" "no running event loop") = true ->
      ends_with (trace (exec (Lab.env Lab.spawn_fails) startup
                          Lab.app_instance Lab.power_on))
        [ev; Ev (logger_error
                   (startup_failed (Exception "RuntimeError" "no running event loop")))
                (Returned tt)])) /\
  ((exists s',
      final (exec (Lab.env Lab.spawn_fails) startup Lab.app_instance Lab.power_on) =
      Some (Raise (Exception "RuntimeError" "no running event loop"), s')) /\
   ends_with
     (trace (exec (Lab.env Lab.spawn_fails) startup Lab.app_instance Lab.power_on))
     (Ev (create_task (CoroutineObj 4) "data_processor")
         (Raised (Exception "RuntimeError" "no running event loop"))
      :: startup_error_log (Exception "RuntimeError" "no running event loop"))) /\
  {| settings := Settings_default;
     sensor_simulator := Some (SensorSimulatorObj 0);
     data_processor := Some (DataProcessorObj 1);
     background_tasks := [TaskObj 3] |} =
  state_after Lab.app_instance
    (trace (exec (Lab.env Lab.spawn_fails) startup Lab.app_instance Lab.power_on)).
Proof.
  destruct (startup_aborts_without_rollback (Lab.env Lab.spawn_fails)
              Lab.app_instance Lab.power_on) as (_ & Hr & Hf & Hs).
  split; [exact (Hr _ _ eq_refl) |].
  split; [| exact (Hs _ _ eq_refl)].
  apply Hf; [cbn; tauto | reflexivity].
Defined.

(** C3, as stated, fails: when [create_task] fails for the data processor,
    the sensor simulator, whose task is already running, is not stopped. *)
Lemma rollback_fails :
  ~ rolls_back (Lab.env Lab.spawn_fails) Lab.app_instance Lab.power_on.
Proof.
  intros H. specialize (H eq_refl). discriminate H.
Qed.

(** C4 (amended).  [shutdown()] has no timeout.  It comes back, normally or
    with an exception, exactly in the runs in which every call it makes is
    answered; so it does whenever each [cancel()], each awaited task and
    each [stop()] is.  A task that ignores its cancellation or a [stop()]
    that hangs blocks it for ever. *)
Theorem shutdown_returns_when_answered (E : Env) (self : Application) (w : World E) :
  (final (exec E shutdown self w) = None <->
   existsb never_answered (trace (exec E shutdown self w)) = true) /\
  ((forall t w0, fst (Task_cancel E t w0) <> Never) ->
   (forall t w0, fst (Task_await E t w0) <> Never) ->
   (forall s w0, fst (SensorSimulator_stop E s w0) <> Never) ->
   (forall p w0, fst (DataProcessor_stop E p w0) <> Never) ->
   final (exec E shutdown self w) <> None).
Proof.
  split; [apply run_blocked | apply shutdown_returns].
Qed.

Lemma shutdown_returns_when_answered_witness :
  final (exec (Lab.env Lab.nominal) shutdown Lab.running_app Lab.running_plant)
  <> None.
Proof.
  apply (proj2 (shutdown_returns_when_answered (Lab.env Lab.nominal)
                  Lab.running_app Lab.running_plant));
    intros; discriminate.
Defined.

(** C4, as stated, fails: the application is started, its tasks ignore
    their cancellation, and [shutdown()] never comes back. *)
Lemma shutdown_bound_fails :
  started (Lab.env Lab.ignores_cancellation) Lab.app_instance Lab.power_on =
    Some (Normal tt, Lab.running_app, Lab.running_plant) /\
  ~ shutdown_always_returns (Lab.env Lab.ignores_cancellation)
      Lab.running_app Lab.running_plant.
Proof.
  split; [reflexivity |]. intros H. apply H. reflexivity.
Qed.

(** C5 (amended).  [shutdown()] never lets an exception deriving from
    [Exception] past its boundary.  In every run in which each call it makes
    is answered and raises nothing but such exceptions (the [CancelledError]
    of an awaited task apart, which is dropped), it completes normally; an
    exception deriving from [Exception] raised by an awaited task or a
    [stop()] ends the work there, is logged, and [shutdown()] returns.  An
    exception that does not derive from [Exception], such as a
    [CancelledError] coming out of [stop()], is not caught: it ends the work
    there, is not logged, and goes through to the caller as it is. *)
Theorem shutdown_swallows_Exception (E : Env) (self : Application) (w : World E) :
  (forall e s',
     final (exec E shutdown self w) = Some (Raise e, s') ->
     is_Exception e = false) /\
  (forallb benign (trace (exec E shutdown self w)) = true ->
   final (exec E shutdown self w) = Some (Normal tt, self)) /\
  (forall ev e,
     In ev (trace (exec E shutdown self w)) ->
     raised ev = Some e ->
     is_Exception e = true ->
     final (exec E shutdown self w) = Some (Normal tt, self) /\
     ends_with (trace (exec E shutdown self w))
       [ev; Ev (logger_error (shutdown_error e)) (Returned tt)]) /\
  (forall ev e,
     In ev (trace (exec E shutdown self w)) ->
     raised ev = Some e ->
     is_Exception e = false ->
     quiet ev = false ->
     final (exec E shutdown self w) = Some (Raise e, self) /\
     ends_with (trace (exec E shutdown self w)) [ev]).
Proof.
  split; [apply shutdown_no_Exception |].
  split; [apply shutdown_benign |].
  split; [apply shutdown_logged | apply shutdown_propagates].
Qed.

Lemma shutdown_swallows_Exception_witness :
  is_Exception CancelledError = false /\
  final (exec (Lab.env Lab.nominal) shutdown Lab.running_app Lab.running_plant) =
    Some (Normal tt, Lab.running_app) /\
  (final (exec (Lab.env Lab.stop_fails) shutdown Lab.running_app Lab.running_plant) =
     Some (Normal tt, Lab.running_app) /\
   ends_with
     (trace (exec (Lab.env Lab.stop_fails) shutdown Lab.running_app Lab.running_plant))
     [Ev (sensor_stop (SensorSimulatorObj 0))
         (Raised (Exception "RuntimeError" "sensor bus unavailable"));
      Ev (logger_error
            (shutdown_error (Exception "RuntimeError" "sensor bus unavailable")))
         (Returned tt)]) /\
  (final (exec (Lab.env Lab.stop_leaks_cancellation) shutdown
            Lab.running_app Lab.running_plant) =
     Some (Raise CancelledError, Lab.running_app) /\
   ends_with
     (trace (exec (Lab.env Lab.stop_leaks_cancellation) shutdown
               Lab.running_app Lab.running_plant))
     [Ev (sensor_stop (SensorSimulatorObj 0)) (Raised CancelledError)]).
Proof.
  split; [| split; [| split]].
  - exact (proj1 (shutdown_swallows_Exception (Lab.env Lab.stop_leaks_cancellation)
                    Lab.running_app Lab.running_plant) _ _ eq_refl).
  - exact (proj1 (proj2 (shutdown_swallows_Exception (Lab.env Lab.nominal)
                           Lab.running_app Lab.running_plant)) eq_refl).
  - apply (proj1 (proj2 (proj2 (shutdown_swallows_Exception (Lab.env Lab.stop_fails)
                                  Lab.running_app Lab.running_plant)))).
    + cbn. tauto.
    + reflexivity.
    + reflexivity.
  - apply (proj2 (proj2 (proj2 (shutdown_swallows_Exception
                                  (Lab.env Lab.stop_leaks_cancellation)
                                  Lab.running_app Lab.running_plant)))).
    + cbn. tauto.
    + reflexivity.
    + reflexivity.
    + reflexivity.
Defined.

(** C5, as stated, fails: the [stop()] of the sensor simulator lets a
    [CancelledError] out, [except Exception] does not catch it, and it comes
    out of [shutdown()]. *)
Lemma shutdown_total_fails :
  started (Lab.env Lab.stop_leaks_cancellation) Lab.app_instance Lab.power_on =
    Some (Normal tt, Lab.running_app, Lab.running_plant) /\
  final (exec (Lab.env Lab.stop_leaks_cancellation) shutdown
           Lab.running_app Lab.running_plant) =
    Some (Raise CancelledError, Lab.running_app) /\
  ~ shutdown_completes_normally (Lab.env Lab.stop_leaks_cancellation)
      Lab.running_app Lab.running_plant.
Proof.
  split; [reflexivity |]. split; [reflexivity |].
  intros [s' H]. discriminate H.
Qed.

(** C6 (amended).  [shutdown()] cancels and awaits the tasks one after the
    other, in the order of [background_tasks]: each task is cancelled and
    then awaited before the next one is touched, so the second task is
    cancelled only after the wait for the first.  The wait has no bound and
    there is no forced teardown.  Every cancel and every await comes before
    the first [stop()], the sensor simulator is stopped before the data
    processor, and when no call fails the calls are exactly those. *)
Theorem shutdown_cancels_task_by_task (E : Env) (self : Application) (w : World E) :
  all_before (fun ev => is_cancel ev || is_await ev) is_stop
    (trace (exec E shutdown self w)) = true /\
  prefix (map the_call (calls (trace (exec E shutdown self w))))
    (shutdown_plan self) /\
  (forallb quiet (trace (exec E shutdown self w)) = true ->
   map the_call (calls (trace (exec E shutdown self w))) = shutdown_plan self).
Proof.
  split; [apply shutdown_order | apply shutdown_calls].
Qed.

Lemma shutdown_cancels_task_by_task_witness :
  map the_call
    (calls (trace (exec (Lab.env Lab.nominal) shutdown
                     Lab.running_app Lab.running_plant))) =
  [Act (task_cancel (TaskObj 3)); Act (await_task (TaskObj 3));
   Act (task_cancel (TaskObj 5)); Act (await_task (TaskObj 5));
   Act (sensor_stop (SensorSimulatorObj 0));
   Act (processor_stop (DataProcessorObj 1))].
Proof.
  exact (proj2 (proj2 (shutdown_cancels_task_by_task (Lab.env Lab.nominal)
                         Lab.running_app Lab.running_plant)) eq_refl).
Defined.

(** C6, as stated, fails: with two tasks, the second one is cancelled after
    the first one has been awaited. *)
Lemma cancel_all_before_wait_fails :
  started (Lab.env Lab.nominal) Lab.app_instance Lab.power_on =
    Some (Normal tt, Lab.running_app, Lab.running_plant) /\
  ~ cancels_all_then_waits (Lab.env Lab.nominal) Lab.running_app Lab.running_plant.
Proof.
  split; [reflexivity |]. intros [H _]. discriminate H.
Qed.

(** C7 (amended).  When the sensor simulator fails with cause "config
    missing" in a call that [startup()] makes (its constructor, the call of
    [start()], or [create_task]), [startup()] logs "Startup failed: config
    missing" when the failure derives from [Exception] and raises that same
    exception again: there is no [StartupError] around it and the unit name
    appears nowhere.  No further step is run and no task is added.  The
    attributes of the application are as they were when it is the
    constructor that failed; both services are set when it is [start()] or
    [create_task].  When the failure happens inside the [start()] coroutine,
    once its task runs, [startup()] does not see it: whenever each of its own
    calls returns, [startup()] returns normally. *)
Theorem startup_reraises_cause (E : Env) (self : Application) (w : World E)
    (e : exn) :
  (forall w1,
     SensorSimulator_new E (sensors (settings self)) w = (Raised e, w1) ->
     exec E startup self w =
     {| final := Some (Raise e, self);
        world := w1;
        trace :=
          Ev (logger_info "🚀 Starting Environmental Monitor System") (Returned tt)
          :: Ev (new_SensorSimulator (sensors (settings self))) (Raised e)
          :: startup_error_log e |}) /\
  (forall s p w1 w2 w3,
     SensorSimulator_new E (sensors (settings self)) w = (Returned s, w1) ->
     DataProcessor_new E (settings self) w1 = (Returned p, w2) ->
     SensorSimulator_start E s w2 = (Raised e, w3) ->
     exec E startup self w =
     {| final := Some (Raise e,
                       {| settings := settings self;
                          sensor_simulator := Some s;
                          data_processor := Some p;
                          background_tasks := background_tasks self |});
        world := w3;
        trace :=
          Ev (logger_info "🚀 Starting Environmental Monitor System") (Returned tt)
          :: Ev (new_SensorSimulator (sensors (settings self))) (Returned s)
          :: Ev (new_DataProcessor (settings self)) (Returned p)
          :: Ev (sensor_start s) (Raised e)
          :: startup_error_log e |}) /\
  (forall s p c w1 w2 w3 w4,
     SensorSimulator_new E (sensors (settings self)) w = (Returned s, w1) ->
     DataProcessor_new E (settings self) w1 = (Returned p, w2) ->
     SensorSimulator_start E s w2 = (Returned c, w3) ->
     asyncio_create_task E c "sensor_simulator" w3 = (Raised e, w4) ->
     exec E startup self w =
     {| final := Some (Raise e,
                       {| settings := settings self;
                          sensor_simulator := Some s;
                          data_processor := Some p;
                          background_tasks := background_tasks self |});
        world := w4;
        trace :=
          Ev (logger_info "🚀 Starting Environmental Monitor System") (Returned tt)
          :: Ev (new_SensorSimulator (sensors (settings self))) (Returned s)
          :: Ev (new_DataProcessor (settings self)) (Returned p)
          :: Ev (sensor_start s) (Returned c)
          :: Ev (create_task c "sensor_simulator") (Raised e)
          :: startup_error_log e |}) /\
  (forallb answered (trace (exec E startup self w)) = true ->
   final (exec E startup self w) =
   Some (Normal tt, state_after self (trace (exec E startup self w)))).
Proof.
  split; [| split; [| split]].
  - intros w1 H. unfold exec, startup. destruct self as [st ss dp ts]. cbn in *.
    rewrite H. destruct e; reflexivity.
  - intros s p w1 w2 w3 H1 H2 H3. unfold exec, startup.
    destruct self as [st ss dp ts]. cbn in *.
    rewrite H1. cbn. rewrite H2. cbn. rewrite H3. destruct e; reflexivity.
  - intros s p c w1 w2 w3 w4 H1 H2 H3 H4. unfold exec, startup.
    destruct self as [st ss dp ts]. cbn in *.
    rewrite H1. cbn. rewrite H2. cbn. rewrite H3. cbn. rewrite H4.
    destruct e; reflexivity.
  - apply startup_answered.
Qed.

Lemma startup_reraises_cause_witness :
  exec (Lab.env Lab.config_missing) startup Lab.app_instance Lab.power_on =
    {| final := Some (Raise (Exception "ValueError" "config missing"),
                      Lab.app_instance);
       world := Lab.bump Lab.power_on;
       trace :=
         [Ev (logger_info "🚀 Starting Environmental Monitor System") (Returned tt);
          Ev (new_SensorSimulator SensorSettings_default)
             (Raised (Exception "ValueError" "config missing"));
          Ev (logger_error "❌ Startup failed: config missing") (Returned tt)] |} /\
  final (exec start_refused startup Lab.app_instance Lab.power_on) =
    Some (Raise (Exception "RuntimeError" "config missing"),
          {| settings := Settings_default;
             sensor_simulator := Some (SensorSimulatorObj 0);
             data_processor := Some (DataProcessorObj 1);
             background_tasks := [] |}) /\
  final (exec (Lab.env sensor_spawn_fails) startup Lab.app_instance Lab.power_on) =
    Some (Raise (Exception "RuntimeError" "config missing"),
          {| settings := Settings_default;
             sensor_simulator := Some (SensorSimulatorObj 0);
             data_processor := Some (DataProcessorObj 1);
             background_tasks := [] |}) /\
  final (exec (Lab.env sensor_task_fails) startup Lab.app_instance Lab.power_on) =
    Some (Normal tt, Lab.running_app).
Proof.
  split; [| split; [| split]].
  - exact (proj1 (startup_reraises_cause (Lab.env Lab.config_missing)
                    Lab.app_instance Lab.power_on
                    (Exception "ValueError" "config missing"))
             (Lab.bump Lab.power_on) eq_refl).
  - rewrite (proj1 (proj2 (startup_reraises_cause start_refused
                             Lab.app_instance Lab.power_on
                             (Exception "RuntimeError" "config missing")))
               (SensorSimulatorObj 0) (DataProcessorObj 1)
               (Lab.bump Lab.power_on) (Lab.bump (Lab.bump Lab.power_on))
               (Lab.bump (Lab.bump (Lab.bump Lab.power_on)))
               eq_refl eq_refl eq_refl).
    reflexivity.
  - rewrite (proj1 (proj2 (proj2 (startup_reraises_cause (Lab.env sensor_spawn_fails)
                                    Lab.app_instance Lab.power_on
                                    (Exception "RuntimeError" "config missing"))))
               (SensorSimulatorObj 0) (DataProcessorObj 1) (CoroutineObj 2)
               (Lab.bump Lab.power_on) (Lab.bump (Lab.bump Lab.power_on))
               (Lab.bump (Lab.bump (Lab.bump Lab.power_on)))
               (Lab.spawned sensor_spawn_fails "sensor_simulator"
                  (Lab.bump (Lab.bump (Lab.bump Lab.power_on))))
               eq_refl eq_refl eq_refl eq_refl).
    reflexivity.
  - rewrite (proj2 (proj2 (proj2 (startup_reraises_cause (Lab.env sensor_task_fails)
                                    Lab.app_instance Lab.power_on CancelledError)))
               eq_refl).
    reflexivity.
Defined.

(** C7, as stated, fails, whichever way the sensor simulator fails to
    start.  When its constructor raises [ValueError("config missing")], that
    [ValueError] is what comes out of [startup()], not a [StartupError].
    When its [start()] coroutine raises [StartupError("config missing")]
    once the task runs, [startup()] has returned normally and raises
    nothing; the error comes out when [shutdown()] awaits the task. *)
Lemma startup_error_wrapper_fails :
  (final (exec (Lab.env Lab.config_missing) startup Lab.app_instance Lab.power_on) =
     Some (Raise (Exception "ValueError" "config missing"), Lab.app_instance) /\
   ~ raises_StartupError (Lab.env Lab.config_missing) Lab.app_instance Lab.power_on) /\
  (final (exec (Lab.env sensor_task_fails) startup Lab.app_instance Lab.power_on) =
     Some (Normal tt, Lab.running_app) /\
   existsb raised_Exception
     (trace (exec (Lab.env sensor_task_fails) shutdown
               Lab.running_app Lab.waiting_plant)) = true /\
   ~ raises_StartupError (Lab.env sensor_task_fails) Lab.app_instance Lab.power_on).
Proof.
  split; (split; [reflexivity |]).
  - intros (msg & s' & H). discriminate H.
  - split; [reflexivity |]. intros (msg & s' & H). discriminate H.
Qed.

(** C8 (amended).  [health()] can be called in every state and never
    raises: it always returns a snapshot, without blocking and without
    writing anything.  On a fresh application it reports both services as
    not running.  In every other state, after a [shutdown()] too, it reports
    what the [is_running] attribute of each service holds at that moment. *)
Theorem health_check_total (E : Env) (st : Settings) :
  (forall self w,
     exists tr,
       exec E (health_check st) self w =
       {| final := Some (Normal
            {| status := "healthy";
               health_environment := environment st;
               health_version := version (api st);
               services :=
                 {| sensors_running :=
                      match sensor_simulator self with
                      | Some s => SensorSimulator_is_running E s w
                      | None => false
                      end;
                    processor_running :=
                      match data_processor self with
                      | Some p => DataProcessor_is_running E p w
                      | None => false
                      end |} |}, self);
          world := w; trace := tr |}) /\
  (forall st0 w,
     exec E (health_check st) (Application_init st0) w =
     {| final := Some (Normal
          {| status := "healthy";
             health_environment := environment st;
             health_version := version (api st);
             services := {| sensors_running := false;
                            processor_running := false |} |},
          Application_init st0);
        world := w; trace := [] |}).
Proof.
  split; [apply exec_health_check | reflexivity].
Qed.

(** C8, as stated, fails: the [stop()] of the sensor simulator fails, the
    error is logged, the data processor is never stopped, [shutdown()]
    returns, and the snapshot reports both services as running. *)
Lemma health_after_shutdown_fails :
  stopped (Lab.env Lab.stop_fails) Lab.app_instance Lab.power_on =
    Some (Normal tt, Lab.running_app,
          {| Lab.fresh := 6; Lab.sensor_flag := true;
             Lab.processor_flag := true; Lab.sensor_stops := 1 |}) /\
  ~ stopped_reports_all_stopped (Lab.env Lab.stop_fails) Settings_default
      Lab.app_instance Lab.power_on.
Proof.
  split; [reflexivity |]. intros H.
  destruct (H _ _ _ eq_refl _ _ eq_refl) as [Hs _]. discriminate Hs.
Qed.


Lemma nominal_keeps_contract : keeps_contract (Lab.env Lab.nominal).
Proof.
  repeat split.
  - intros t w. exists true. reflexivity.
  - intros t w. left. reflexivity.
  - intros s w. left. exists tt. reflexivity.
  - intros p w. left. exists tt. reflexivity.
Qed.


(** The contract is needed.  With a [stop()] that returns the first time and
    waits for ever when called again, the first [shutdown()] completes
    normally and the second never does. *)
Lemma second_shutdown_fails :
  final (exec (Lab.env Lab.stop_waits_again) shutdown
           Lab.running_app Lab.running_plant) =
    Some (Normal tt, Lab.running_app) /\
  ~ second_shutdown_safe (Lab.env Lab.stop_waits_again)
      Lab.running_app Lab.running_plant.
Proof.
  split; [reflexivity |]. intros H. specialize (H _ _ eq_refl). discriminate H.
Qed.

(** C10.  In [startup()] both constructors are called before any unit is
    spawned.  So in every state the application can reach, a non-empty
    [background_tasks] comes with both services set; and when the constructor
    of the data processor fails, no [start()] and no [create_task] has been
    called and [background_tasks] is as it was. *)
Theorem services_constructed_before_spawn (E : Env) :
  (forall self w,
     all_before is_construct is_spawn (trace (exec E startup self w)) = true) /\
  (forall self,
     reachable E self ->
     background_tasks self <> [] ->
     sensor_simulator self <> None /\ data_processor self <> None) /\
  (forall self w,
     existsb processor_ctor_failed (trace (exec E startup self w)) = true ->
     forallb (fun ev => negb (is_spawn ev)) (trace (exec E startup self w)) = true /\
     forall res s',
       final (exec E startup self w) = Some (res, s') ->
       background_tasks s' = background_tasks self).
Proof.
  split; [apply startup_order |].
  split; [apply reachable_tasks_services | apply startup_second_ctor].
Qed.

Lemma services_constructed_before_spawn_witness :
  (sensor_simulator Lab.running_app <> None /\
   data_processor Lab.running_app <> None) /\
  (forallb (fun ev => negb (is_spawn ev))
     (trace (exec (Lab.env Lab.processor_broken) startup
               Lab.app_instance Lab.power_on)) = true /\
   forall res s',
     final (exec (Lab.env Lab.processor_broken) startup
              Lab.app_instance Lab.power_on) = Some (res, s') ->
     background_tasks s' = background_tasks Lab.app_instance).
Proof.
  split.
  - apply (proj1 (proj2 (services_constructed_before_spawn (Lab.env Lab.nominal)))).
    + apply (reachable_startup (Lab.env Lab.nominal) Lab.app_instance
               Lab.power_on (Normal tt) Lab.running_app).
      * apply reachable_init.
      * reflexivity.
    + discriminate.
  - apply (proj2 (proj2 (services_constructed_before_spawn
                           (Lab.env Lab.processor_broken)))).
    reflexivity.
Defined.

(** ** lifespan *)

Lemma and_then_final {A B W} (r : run_result A W)
    (k : A -> W -> run_result B W) (a : A) :
  final r = Some a ->
  and_then r k =
  {| final := final (k a (world r)); world := world (k a (world r));
     trace := trace r ++ trace (k a (world r)) |}.
Proof. intros H. unfold and_then. now rewrite H. Qed.

Section Lifespan.

Variable E : Env.
Variable serving : M unit.

Lemma exec_lifespan self w :
  exec E (lifespan serving) self w =
  and_then (exec E startup self w) (fun rs w1 =>
    match fst rs with
    | Normal _ =>
        and_then (exec E serving (snd rs) w1) (fun rs2 w2 =>
          match fst rs2 with
          | Normal _ => exec E shutdown (snd rs2) w2
          | Raise e => done (Raise e, snd rs2) w2
          end)
    | Raise e => done (Raise e, snd rs) w1
    end).
Proof.
  unfold lifespan. rewrite exec_bind. unfold and_then.
  destruct (final (exec E startup self w)) as [[[[] | e] s1] |]; cbn;
    try reflexivity.
  rewrite exec_bind. reflexivity.
Qed.

End Lifespan.

(** X1.  When [startup()] raises, [lifespan] ends there with the same
    exception: what it did is what [startup()] did, the body of the
    [async with] is not entered and [shutdown()] is not called, so a task
    created before the failure is never cancelled. *)
Theorem lifespan_failed_startup (E : Env) (serving : M unit)
    (self s' : Application) (w : World E) (e : exn) :
  final (exec E startup self w) = Some (Raise e, s') ->
  exec E (lifespan serving) self w = exec E startup self w.
Proof.
  intros H. rewrite exec_lifespan. unfold and_then.
  destruct (exec E startup self w) as [f w' tr]. cbn in *. subst f. cbn.
  now rewrite app_nil_r.
Qed.

Lemma lifespan_failed_startup_witness :
  exec (Lab.env Lab.spawn_fails) (lifespan (ret tt)) Lab.app_instance Lab.power_on =
  exec (Lab.env Lab.spawn_fails) startup Lab.app_instance Lab.power_on.
Proof.
  exact (lifespan_failed_startup (Lab.env Lab.spawn_fails) (ret tt)
           Lab.app_instance _ Lab.power_on _ eq_refl).
Defined.

(** X2.  There is no [try]/[finally] around the [yield]: when [startup()]
    went well and the body of the [async with] raises, [lifespan] ends with
    that exception and [shutdown()] is not called; the calls made are those
    of [startup()] followed by those of the body. *)
Theorem lifespan_failed_serving (E : Env) (serving : M unit)
    (self s1 s2 : Application) (w : World E) (e : exn) :
  final (exec E startup self w) = Some (Normal tt, s1) ->
  final (exec E serving s1 (world (exec E startup self w))) = Some (Raise e, s2) ->
  final (exec E (lifespan serving) self w) = Some (Raise e, s2) /\
  trace (exec E (lifespan serving) self w) =
    trace (exec E startup self w)
    ++ trace (exec E serving s1 (world (exec E startup self w))).
Proof.
  intros H1 H2. rewrite exec_lifespan.
  rewrite (and_then_final _ _ _ H1). cbn [fst snd].
  rewrite (and_then_final _ _ _ H2). cbn. now rewrite app_nil_r.
Qed.

Lemma lifespan_failed_serving_witness :
  final (exec (Lab.env Lab.nominal)
           (lifespan (raise (Exception "RuntimeError" "worker crashed")))
           Lab.app_instance Lab.power_on) =
    Some (Raise (Exception "RuntimeError" "worker crashed"), Lab.running_app) /\
  trace (exec (Lab.env Lab.nominal)
           (lifespan (raise (Exception "RuntimeError" "worker crashed")))
           Lab.app_instance Lab.power_on) =
    trace (exec (Lab.env Lab.nominal) startup Lab.app_instance Lab.power_on)
    ++ trace (exec (Lab.env Lab.nominal)
                (@raise unit (Exception "RuntimeError" "worker crashed"))
                Lab.running_app
                (world (exec (Lab.env Lab.nominal) startup
                          Lab.app_instance Lab.power_on))).
Proof.
  exact (lifespan_failed_serving (Lab.env Lab.nominal)
           (raise (Exception "RuntimeError" "worker crashed"))
           Lab.app_instance Lab.running_app Lab.running_app Lab.power_on
           (Exception "RuntimeError" "worker crashed") eq_refl eq_refl).
Defined.

(** X3.  When [startup()] and the body of the [async with] both went well,
    [lifespan] ends as [shutdown()] does, run on the state and in the world
    the body left: the calls are those of the three in a row, and no
    exception deriving from [Exception] comes out. *)
Theorem lifespan_runs_shutdown (E : Env) (serving : M unit)
    (self s1 s2 : Application) (w : World E) :
  final (exec E startup self w) = Some (Normal tt, s1) ->
  final (exec E serving s1 (world (exec E startup self w))) = Some (Normal tt, s2) ->
  let w2 := world (exec E serving s1 (world (exec E startup self w))) in
  final (exec E (lifespan serving) self w) = final (exec E shutdown s2 w2) /\
  trace (exec E (lifespan serving) self w) =
    trace (exec E startup self w)
    ++ trace (exec E serving s1 (world (exec E startup self w)))
    ++ trace (exec E shutdown s2 w2) /\
  (forall e s3,
     final (exec E (lifespan serving) self w) = Some (Raise e, s3) ->
     is_Exception e = false).
Proof.
  intros H1 H2 w2.
  assert (Hr : exec E (lifespan serving) self w =
               {| final := final (exec E shutdown s2 w2);
                  world := world (exec E shutdown s2 w2);
                  trace := trace (exec E startup self w)
                           ++ trace (exec E serving s1 (world (exec E startup self w)))
                           ++ trace (exec E shutdown s2 w2) |}).
  { rewrite exec_lifespan.
    rewrite (and_then_final _ _ _ H1). cbn [fst snd].
    rewrite (and_then_final _ _ _ H2). reflexivity. }
  rewrite Hr. cbn. split; [reflexivity |]. split; [reflexivity |].
  intros e s3. apply shutdown_no_Exception.
Qed.

Lemma lifespan_runs_shutdown_witness :
  final (exec (Lab.env Lab.stop_fails) (lifespan (ret tt))
           Lab.app_instance Lab.power_on) =
    Some (Normal tt, Lab.running_app) /\
  existsb is_error_log
    (trace (exec (Lab.env Lab.stop_fails) (lifespan (ret tt))
              Lab.app_instance Lab.power_on)) = true.
Proof.
  destruct (lifespan_runs_shutdown (Lab.env Lab.stop_fails) (ret tt)
              Lab.app_instance Lab.running_app Lab.running_app Lab.power_on
              eq_refl eq_refl) as (Hf & Ht & _).
  split; [rewrite Hf; reflexivity | rewrite Ht; reflexivity].
Defined.

(** ** startup and shutdown, further *)

Ltac startup_run self :=
  unfold exec, startup; destruct self as [? ? ? ?]; cbn; repeat reply_case.

Ltac shutdown_run E self w :=
  rewrite ?exec_shutdown;
  let L := fresh "Hloop" in
  let C := fresh "Hcalls" in
  pose proof (loop_run E (background_tasks self) self w) as L;
  pose proof (loop_calls E (background_tasks self) self w) as C;
  destruct (exec E (for_each (background_tasks self) cancel_and_await) self w)
    as [[[[[] | [ | ? ? | ? ? ]] ?] |] ? ?];
  destruct L as [? L]; cbn in L, C |- *;
  [ destruct L as [-> ?];
    destruct self as [? [?|] [?|] ?];
    unfold exec, stop_services; cbn in *;
    repeat reply_case
  | destruct L as [-> (? & ? & -> & ? & ? & ?)]
  | destruct L as [-> (? & ? & -> & ? & ? & ?)]
  | destruct L as [-> (? & ? & -> & ? & ? & ?)]
  | destruct L as (? & ? & -> & ? & ?) ].

Lemma loop_plan_app ts1 ts2 : loop_plan (ts1 ++ ts2) = loop_plan ts1 ++ loop_plan ts2.
Proof. unfold loop_plan. apply flat_map_app. Qed.

(** What a [startup()] that returns has called and been answered. *)
Lemma startup_creates (E : Env) self w s1 :
  final (exec E startup self w) = Some (Normal tt, s1) ->
  exists s p c1 c2 t1 t2,
    s1 = {| settings := settings self; sensor_simulator := Some s;
            data_processor := Some p;
            background_tasks := background_tasks self ++ [t1; t2] |} /\
    calls (trace (exec E startup self w)) =
      [Ev (new_SensorSimulator (sensors (settings self))) (Returned s);
       Ev (new_DataProcessor (settings self)) (Returned p);
       Ev (sensor_start s) (Returned c1);
       Ev (create_task c1 "sensor_simulator") (Returned t1);
       Ev (processor_start p) (Returned c2);
       Ev (create_task c2 "data_processor") (Returned t2)].
Proof.
  startup_run self.
  all: intros [= <-] || discriminate.
  do 6 eexists. rewrite <- app_assoc. split; reflexivity.
Qed.

(** X4.  A [shutdown()] that follows a [startup()] that returned acts on
    what that [startup()] made: after the tasks that were already in
    [background_tasks], it cancels and awaits the sensor task, then the
    processor task, that [create_task] returned, and it stops the sensor
    simulator and then the data processor that the constructors returned,
    and nothing else.  The services held before that [startup()] are not
    stopped. *)
Theorem shutdown_acts_on_what_startup_made (E : Env)
    (self0 self1 : Application) (w0 : World E) :
  final (exec E startup self0 w0) = Some (Normal tt, self1) ->
  exists s p c1 c2 t1 t2,
    calls (trace (exec E startup self0 w0)) =
      [Ev (new_SensorSimulator (sensors (settings self0))) (Returned s);
       Ev (new_DataProcessor (settings self0)) (Returned p);
       Ev (sensor_start s) (Returned c1);
       Ev (create_task c1 "sensor_simulator") (Returned t1);
       Ev (processor_start p) (Returned c2);
       Ev (create_task c2 "data_processor") (Returned t2)] /\
    forall w1 : World E,
      prefix (map the_call (calls (trace (exec E shutdown self1 w1))))
        (loop_plan (background_tasks self0)
         ++ [Act (task_cancel t1); Act (await_task t1);
             Act (task_cancel t2); Act (await_task t2);
             Act (sensor_stop s); Act (processor_stop p)]) /\
      (forallb quiet (trace (exec E shutdown self1 w1)) = true ->
       map the_call (calls (trace (exec E shutdown self1 w1))) =
       loop_plan (background_tasks self0)
       ++ [Act (task_cancel t1); Act (await_task t1);
           Act (task_cancel t2); Act (await_task t2);
           Act (sensor_stop s); Act (processor_stop p)]).
Proof.
  intros H. destruct (startup_creates E self0 w0 self1 H)
    as (s & p & c1 & c2 & t1 & t2 & -> & Hc).
  exists s, p, c1, c2, t1, t2. split; [exact Hc |]. intros w1.
  match goal with
  | |- context [exec E shutdown ?a w1] =>
      pose proof (shutdown_calls E a w1) as Hs
  end.
  unfold shutdown_plan in Hs. cbn [background_tasks sensor_simulator data_processor] in Hs.
  rewrite loop_plan_app, <- app_assoc in Hs. exact Hs.
Qed.

Lemma shutdown_acts_on_what_startup_made_witness :
  exists s p c1 c2 t1 t2,
    calls (trace (exec (Lab.env Lab.nominal) startup Lab.running_app Lab.running_plant)) =
      [Ev (new_SensorSimulator (sensors (settings Lab.running_app))) (Returned s);
       Ev (new_DataProcessor (settings Lab.running_app)) (Returned p);
       Ev (sensor_start s) (Returned c1);
       Ev (create_task c1 "sensor_simulator") (Returned t1);
       Ev (processor_start p) (Returned c2);
       Ev (create_task c2 "data_processor") (Returned t2)] /\
    forall w1 : Lab.Plant,
      prefix
        (map the_call
           (calls (trace (exec (Lab.env Lab.nominal) shutdown
                            {| settings := Settings_default;
                               sensor_simulator := Some (SensorSimulatorObj 6);
                               data_processor := Some (DataProcessorObj 7);
                               background_tasks :=
                                 [TaskObj 3; TaskObj 5; TaskObj 9; TaskObj 11] |}
                            w1))))
        (loop_plan (background_tasks Lab.running_app)
         ++ [Act (task_cancel t1); Act (await_task t1);
             Act (task_cancel t2); Act (await_task t2);
             Act (sensor_stop s); Act (processor_stop p)]) /\
      (forallb quiet
         (trace (exec (Lab.env Lab.nominal) shutdown
                   {| settings := Settings_default;
                      sensor_simulator := Some (SensorSimulatorObj 6);
                      data_processor := Some (DataProcessorObj 7);
                      background_tasks :=
                        [TaskObj 3; TaskObj 5; TaskObj 9; TaskObj 11] |}
                   w1)) = true ->
       map the_call
         (calls (trace (exec (Lab.env Lab.nominal) shutdown
                          {| settings := Settings_default;
                             sensor_simulator := Some (SensorSimulatorObj 6);
                             data_processor := Some (DataProcessorObj 7);
                             background_tasks :=
                               [TaskObj 3; TaskObj 5; TaskObj 9; TaskObj 11] |}
                          w1))) =
       loop_plan (background_tasks Lab.running_app)
       ++ [Act (task_cancel t1); Act (await_task t1);
           Act (task_cancel t2); Act (await_task t2);
           Act (sensor_stop s); Act (processor_stop p)]).
Proof.
  exact (shutdown_acts_on_what_startup_made (Lab.env Lab.nominal)
           Lab.running_app _ Lab.running_plant eq_refl).
Defined.

(** X5.  Nothing ever takes a task out of [background_tasks], unsets a
    service or changes the settings: whatever calls of [startup()] and
    [shutdown()] were made, the tasks that were in the list are still at its
    head, in the same order; [shutdown()] leaves the tasks it cancelled in
    the list, and a later [shutdown()] cancels and awaits them again. *)
Theorem tasks_are_never_dropped (E : Env) (self self' : Application) :
  evolves E self self' ->
  settings self' = settings self /\
  prefix (background_tasks self) (background_tasks self') /\
  (sensor_simulator self <> None -> sensor_simulator self' <> None) /\
  (data_processor self <> None -> data_processor self' <> None).
Proof.
  induction 1 as [self | self self1 w res self2 Hev IH Hf
                 | self self1 w res self2 Hev IH Hf].
  - repeat split; auto. apply prefix_refl.
  - destruct IH as (Hst & [r1 Hr1] & Hs & Hp).
    destruct (startup_state E self1 w res self2 Hf)
      as (Hst' & [r2 Hr2] & Hs' & Hp' & _).
    repeat split; auto.
    + congruence.
    + exists (r1 ++ r2). rewrite Hr2, Hr1. now rewrite app_assoc.
  - rewrite (shutdown_self E self1 w res self2 Hf). exact IH.
Qed.

Lemma tasks_are_never_dropped_witness :
  settings Lab.running_app = settings Lab.app_instance /\
  prefix (background_tasks Lab.app_instance) (background_tasks Lab.running_app) /\
  (sensor_simulator Lab.app_instance <> None ->
   sensor_simulator Lab.running_app <> None) /\
  (data_processor Lab.app_instance <> None ->
   data_processor Lab.running_app <> None).
Proof.
  apply (tasks_are_never_dropped (Lab.env Lab.nominal)).
  apply (evolves_shutdown (Lab.env Lab.nominal) Lab.app_instance Lab.running_app
           Lab.running_plant (Normal tt) Lab.running_app).
  - apply (evolves_startup (Lab.env Lab.nominal) Lab.app_instance Lab.app_instance
             Lab.power_on (Normal tt) Lab.running_app).
    + apply evolves_refl.
    + reflexivity.
  - reflexivity.
Defined.

Lemma filter_prefix {A} (f : A -> bool) (l1 l2 : list A) :
  prefix l1 l2 -> prefix (filter f l1) (filter f l2).
Proof. intros [rest ->]. exists (filter f rest). apply filter_app. Qed.

Lemma loop_plan_no_stop ts : filter is_stop_act (loop_plan ts) = [].
Proof. induction ts as [| t ts IH]; cbn; [reflexivity | exact IH]. Qed.

Lemma stops_of_calls tr :
  filter is_stop_act (map the_call (calls tr)) =
  filter is_stop_act (map the_call tr).
Proof.
  unfold calls. induction tr as [| [X c r] tr IH]; cbn; [reflexivity |].
  destruct c; cbn; rewrite IH; reflexivity.
Qed.

(** X6.  [shutdown()] calls [stop()] at most once on the sensor simulator
    that [self] holds and then at most once on the data processor that
    [self] holds, and on no other object: none when no service is set. *)
Theorem shutdown_stops_what_is_held (E : Env) (self : Application) (w : World E) :
  prefix (filter is_stop_act (map the_call (trace (exec E shutdown self w))))
    (held_stops self).
Proof.
  rewrite <- stops_of_calls.
  destruct (shutdown_calls E self w) as [Hp _].
  apply (filter_prefix is_stop_act) in Hp.
  unfold shutdown_plan in Hp. rewrite filter_app, loop_plan_no_stop in Hp.
  cbn [app] in Hp.
  replace (held_stops self) with
    (filter is_stop_act
       (match sensor_simulator self with
        | Some s => [Act (sensor_stop s)]
        | None => []
        end ++
        match data_processor self with
        | Some p => [Act (processor_stop p)]
        | None => []
        end)); [exact Hp |].
  unfold held_stops.
  destruct (sensor_simulator self), (data_processor self); reflexivity.
Qed.

Lemma all_before_last p q l x r :
  all_before p q (l ++ x :: r) = true -> p x = true ->
  forallb (fun ev => negb (q ev)) l = true.
Proof.
  induction l as [| ev l IH]; cbn; [reflexivity |].
  intros [Hq Hall]%andb_prop Hx. rewrite (IH Hall Hx), andb_true_r.
  destruct (q ev); [| reflexivity].
  rewrite forallb_app in Hq. apply andb_prop in Hq. destruct Hq as [_ Hq].
  cbn in Hq. rewrite Hx in Hq. discriminate Hq.
Qed.

(** X7.  A background task that ended with an error keeps the services
    from being stopped: when awaiting a task raises an exception deriving
    from [Exception], [shutdown()] logs it and returns normally, having
    called [stop()] on no service; nothing is called after that await but the
    logger. *)
Theorem failed_task_prevents_stop (E : Env) (self : Application) (w : World E)
    (ev : event) (e : exn) :
  In ev (trace (exec E shutdown self w)) ->
  is_await ev = true ->
  raised ev = Some e ->
  is_Exception e = true ->
  final (exec E shutdown self w) = Some (Normal tt, self) /\
  forallb (fun x => negb (is_stop x)) (trace (exec E shutdown self w)) = true /\
  ends_with (trace (exec E shutdown self w))
    [ev; Ev (logger_error (shutdown_error e)) (Returned tt)].
Proof.
  intros Hin Haw Hr He.
  destruct (shutdown_logged E self w ev e Hin Hr He) as [Hf Hends].
  split; [exact Hf |]. split; [| exact Hends].
  pose proof (shutdown_order E self w) as Hord.
  destruct Hends as [pre Hpre]. rewrite Hpre in Hord |- *.
  rewrite forallb_app.
  rewrite (all_before_last _ _ pre ev _ Hord) by (now rewrite Haw, orb_true_r).
  cbn. destruct ev as [X c r]; destruct c; try discriminate Haw. reflexivity.
Qed.

Lemma failed_task_prevents_stop_witness :
  final (exec (Lab.env task_died) shutdown Lab.running_app Lab.running_plant) =
    Some (Normal tt, Lab.running_app) /\
  forallb (fun x => negb (is_stop x))
    (trace (exec (Lab.env task_died) shutdown Lab.running_app Lab.running_plant)) = true /\
  ends_with
    (trace (exec (Lab.env task_died) shutdown Lab.running_app Lab.running_plant))
    [Ev (await_task (TaskObj 3)) (Raised (Exception "ConnectionError" "broker down"));
     Ev (logger_error (shutdown_error (Exception "ConnectionError" "broker down")))
        (Returned tt)].
Proof.
  apply (failed_task_prevents_stop (Lab.env task_died) Lab.running_app
           Lab.running_plant).
  - cbn. tauto.
  - reflexivity.
  - reflexivity.
  - reflexivity.
Defined.

(** X8.  [_start_background_services] relies on [startup] having set both
    services.  Called with no sensor simulator it raises [AttributeError]
    before making any call.  Called with a sensor simulator and no data
    processor it spawns the sensor task, appends it to [background_tasks]
    and then raises [AttributeError]: the task is left running. *)
Theorem spawn_needs_both_services (E : Env) (self : Application) (w : World E) :
  (sensor_simulator self = None ->
   exec E _start_background_services self w =
   {| final := Some (Raise (NoneType_has_no "start"), self);
      world := w; trace := [] |}) /\
  (forall s c t w1 w2,
     sensor_simulator self = Some s ->
     data_processor self = None ->
     SensorSimulator_start E s w = (Returned c, w1) ->
     asyncio_create_task E c "sensor_simulator" w1 = (Returned t, w2) ->
     exec E _start_background_services self w =
     {| final := Some (Raise (NoneType_has_no "start"),
                       {| settings := settings self;
                          sensor_simulator := Some s;
                          data_processor := None;
                          background_tasks := background_tasks self ++ [t] |});
        world := w2;
        trace := [Ev (sensor_start s) (Returned c);
                  Ev (create_task c "sensor_simulator") (Returned t)] |}).
Proof.
  destruct self as [st ss dp ts]. cbn [sensor_simulator data_processor].
  split.
  - intros ->. reflexivity.
  - intros s c t w1 w2 -> -> H1 H2.
    unfold exec, _start_background_services. cbn. rewrite H1. cbn.
    rewrite H2. reflexivity.
Qed.

Lemma spawn_needs_both_services_witness :
  exec (Lab.env Lab.nominal) _start_background_services
    Lab.app_instance Lab.power_on =
    {| final := Some (Raise (NoneType_has_no "start"), Lab.app_instance);
       world := Lab.power_on; trace := [] |} /\
  final (exec (Lab.env Lab.nominal) _start_background_services
           {| settings := Settings_default;
              sensor_simulator := Some (SensorSimulatorObj 0);
              data_processor := None;
              background_tasks := [] |}
           Lab.power_on) =
    Some (Raise (NoneType_has_no "start"),
          {| settings := Settings_default;
             sensor_simulator := Some (SensorSimulatorObj 0);
             data_processor := None;
             background_tasks := [TaskObj 1] |}).
Proof.
  split.
  - exact (proj1 (spawn_needs_both_services (Lab.env Lab.nominal)
                    Lab.app_instance Lab.power_on) eq_refl).
  - rewrite (proj2 (spawn_needs_both_services (Lab.env Lab.nominal)
                      {| settings := Settings_default;
                         sensor_simulator := Some (SensorSimulatorObj 0);
                         data_processor := None;
                         background_tasks := [] |}
                      Lab.power_on)
               (SensorSimulatorObj 0) (CoroutineObj 0) (TaskObj 1)
               (Lab.bump Lab.power_on)
               (Lab.spawned Lab.nominal "sensor_simulator" (Lab.bump Lab.power_on))
               eq_refl eq_refl eq_refl eq_refl).
    reflexivity.
Defined.

(** X9.  The log of [startup()] tells how it ended.  The line "System
    startup complete" is written exactly when [startup()] returns normally,
    and so is "Background services started"; a line at level ERROR is written
    exactly when it raises an exception deriving from [Exception].  When it
    raises another exception, or is blocked in a call, neither is written. *)
Theorem startup_log_tells_outcome (E : Env) (self : Application) (w : World E) :
  existsb (said "✅ System startup complete") (trace (exec E startup self w)) =
    returned_normally (exec E startup self w) /\
  existsb (said "🔄 Background services started") (trace (exec E startup self w)) =
    returned_normally (exec E startup self w) /\
  existsb is_error_log (trace (exec E startup self w)) =
    failed_with_Exception (exec E startup self w).
Proof.
  startup_run self; repeat split; reflexivity.
Qed.

Lemma loop_says_nothing msg l :
  forallb (fun ev => is_cancel ev || is_await ev) l = true ->
  existsb (said msg) l = false.
Proof.
  induction l as [| [X c r] l IH]; cbn; [reflexivity |].
  intros [Hk Hall]%andb_prop. rewrite (IH Hall).
  destruct c; cbn in *; try discriminate; reflexivity.
Qed.

Lemma loop_logs_no_error l :
  forallb (fun ev => is_cancel ev || is_await ev) l = true ->
  existsb is_error_log l = false.
Proof.
  induction l as [| [X c r] l IH]; cbn; [reflexivity |].
  intros [Hk Hall]%andb_prop. rewrite (IH Hall).
  destruct c; cbn in *; try discriminate; reflexivity.
Qed.

Lemma quiet_no_Exception l :
  forallb quiet l = true -> existsb raised_Exception l = false.
Proof.
  induction l as [| ev l IH]; cbn; [reflexivity |].
  intros [Hq Hall]%andb_prop. rewrite (IH Hall), orb_false_r.
  unfold raised_Exception. destruct (raised ev) as [e |] eqn:Hr; [| reflexivity].
  now rewrite (quiet_raised ev e Hq Hr).
Qed.

(** X10.  The log of [shutdown()] tells what happened.  "Shutdown complete"
    is written exactly when every call was answered without an error (the
    [CancelledError] of an awaited task apart): every task was cancelled and
    awaited and every service held was stopped.  A line at level ERROR is
    written exactly when a call raised an exception deriving from
    [Exception].  [shutdown()] returns normally exactly when one of the two
    was written; after the ERROR line it returns normally too, although the
    rest of the work was skipped. *)
Theorem shutdown_log_tells_outcome (E : Env) (self : Application) (w : World E) :
  existsb (said "✅ Shutdown complete") (trace (exec E shutdown self w)) =
    forallb quiet (trace (exec E shutdown self w)) /\
  existsb is_error_log (trace (exec E shutdown self w)) =
    existsb raised_Exception (trace (exec E shutdown self w)) /\
  returned_normally (exec E shutdown self w) =
    existsb (said "✅ Shutdown complete") (trace (exec E shutdown self w))
    || existsb is_error_log (trace (exec E shutdown self w)).
Proof.
  shutdown_run E self w.
  all: unfold returned_normally; cbn in *; rewrite ?app_nil_r.
  all: repeat match goal with
         | H : forallb _ (_ ++ _) = true |- _ =>
             rewrite forallb_app in H; apply andb_prop in H; destruct H
         end.
  all: rewrite ?existsb_app, ?forallb_app.
  all: repeat match goal with
         | H : forallb (fun ev => is_cancel ev || is_await ev) ?l = true |- _ =>
             rewrite ?(loop_says_nothing _ l H), ?(loop_logs_no_error l H);
             clear H
         end.
  all: repeat match goal with
         | H : forallb quiet ?l = true |- _ =>
             rewrite ?(quiet_no_Exception l H), ?H; clear H
         end.
  all: cbn.
  all: try match goal with
           | Hq : quiet ?x = false |- _ => rewrite Hq
           | Hn : never_answered ?x = true |- _ =>
               rewrite (unanswered_not_quiet x Hn)
           end.
  all: unfold raised_Exception.
  all: try match goal with
           | Hr : raised ?x = Some _ |- _ => rewrite Hr
           | Hn : never_answered ?x = true |- _ =>
               destruct x as [? ? [? | ? |]]; try discriminate Hn
           end.
  all: repeat split; reflexivity.
Qed.

(** ** config/settings.py *)

Lemma append_length (s1 s2 : string) :
  String.length (s1 ++ s2)%string = String.length s1 + String.length s2.
Proof. induction s1 as [| c s1 IH]; cbn; [reflexivity | now rewrite IH]. Qed.

Lemma append_assoc (s1 s2 s3 : string) :
  ((s1 ++ s2) ++ s3 = s1 ++ (s2 ++ s3))%string.
Proof. induction s1 as [| c s1 IH]; cbn; [reflexivity | now rewrite IH]. Qed.

(** X11.  [RedisSettings.url] takes an empty password for no password: both
    give the same URL, without credentials.  Any other password shows in
    the URL, which then differs from the one without credentials. *)
Theorem redis_url_credentials (r : RedisSettings.t) :
  RedisSettings.url (RedisSettings.with_password r (Some "")) =
    RedisSettings.url (RedisSettings.with_password r None) /\
  (forall pw,
     pw <> "" ->
     RedisSettings.url (RedisSettings.with_password r (Some pw)) =
       ("redis://:" ++ pw ++ "@" ++ RedisSettings.host r ++ ":"
        ++ str_int (RedisSettings.port r) ++ "/"
        ++ str_int (RedisSettings.db r))%string /\
     RedisSettings.url (RedisSettings.with_password r (Some pw)) <>
       RedisSettings.url (RedisSettings.with_password r None)).
Proof.
  split; [reflexivity |].
  intros [| c pw] Hne; [now contradiction Hne |].
  split; [reflexivity |].
  unfold RedisSettings.url. cbn [RedisSettings.password RedisSettings.with_password
    RedisSettings.host RedisSettings.port RedisSettings.db].
  intros Heq. apply (f_equal String.length) in Heq.
  rewrite !append_length in Heq. cbn in Heq. lia.
Qed.

Lemma redis_url_credentials_witness :
  RedisSettings.url
    {| RedisSettings.host := "localhost"; RedisSettings.port := 6379;
       RedisSettings.db := 0; RedisSettings.password := Some "s3cret" |} =
    "redis://:s3cret@localhost:6379/0" /\
  RedisSettings.url
    {| RedisSettings.host := "localhost"; RedisSettings.port := 6379;
       RedisSettings.db := 0; RedisSettings.password := Some "s3cret" |} <>
    "redis://localhost:6379/0".
Proof.
  exact (proj2 (redis_url_credentials
                  {| RedisSettings.host := "localhost"; RedisSettings.port := 6379;
                     RedisSettings.db := 0; RedisSettings.password := None |})
           "s3cret" ltac:(discriminate)).
Defined.

(** X12.  [DatabaseSettings.url] puts its parts in the URL as they are,
    without escaping: a colon in the user name cannot be told from the
    separator, so moving the text around the first colon from the user name
    to the password leaves the URL unchanged. *)
Theorem database_url_not_escaped (d : DatabaseSettings.t) (u x : string) :
  DatabaseSettings.url
    {| DatabaseSettings.host := DatabaseSettings.host d;
       DatabaseSettings.port := DatabaseSettings.port d;
       DatabaseSettings.name := DatabaseSettings.name d;
       DatabaseSettings.user := (u ++ ":" ++ x)%string;
       DatabaseSettings.password := DatabaseSettings.password d |} =
  DatabaseSettings.url
    {| DatabaseSettings.host := DatabaseSettings.host d;
       DatabaseSettings.port := DatabaseSettings.port d;
       DatabaseSettings.name := DatabaseSettings.name d;
       DatabaseSettings.user := u;
       DatabaseSettings.password :=
         (x ++ ":" ++ DatabaseSettings.password d)%string |}.
Proof.
  unfold DatabaseSettings.url. cbn [DatabaseSettings.host DatabaseSettings.port
    DatabaseSettings.name DatabaseSettings.user DatabaseSettings.password].
  rewrite !append_assoc. reflexivity.
Qed.

(** X13.  [is_development()] and [is_production()] are never both true;
    the comparison is exact, so with any other environment name both are
    false. *)
Theorem development_excludes_production (st : Settings) :
  is_development st && is_production st = false /\
  (environment st <> "development" -> environment st <> "production" ->
   is_development st = false /\ is_production st = false).
Proof.
  unfold is_development, is_production. split.
  - destruct (String.eqb_spec (environment st) "development") as [-> |];
      reflexivity.
  - intros H1 H2. split; now apply String.eqb_neq.
Qed.

Lemma development_excludes_production_witness :
  is_development
    {| environment := "Production"; debug := false; log_level := "INFO";
       log_format := "json"; sensors := SensorSettings_default;
       api := APISettings_default |} = false /\
  is_production
    {| environment := "Production"; debug := false; log_level := "INFO";
       log_format := "json"; sensors := SensorSettings_default;
       api := APISettings_default |} = false.
Proof.
  apply (proj2 (development_excludes_production
                  {| environment := "Production"; debug := false;
                     log_level := "INFO"; log_format := "json";
                     sensors := SensorSettings_default;
                     api := APISettings_default |})); discriminate.
Defined.

(** ** configure_logging *)

(** X14.  When the logger accepts both handlers, [configure_logging] leaves
    it with exactly two, whatever it held before: the console handler and
    then the file handler, both at [settings.log_level]; the console one is
    serialised exactly when [log_format] is "json", and has the coloured
    format otherwise.  Calling it again changes nothing. *)
Theorem configure_logging_installs (refuses : Logging.Handler -> option exn)
    (st : Settings) (handlers : list Logging.Handler) :
  refuses (Logging.console st) = None ->
  refuses (Logging.file st) = None ->
  Logging.configure_logging refuses st handlers =
    (Normal tt, [Logging.console st; Logging.file st]) /\
  Logging.level (Logging.console st) = log_level st /\
  Logging.level (Logging.file st) = log_level st /\
  Logging.serialize (Logging.console st) = String.eqb (log_format st) "json" /\
  (Logging.format (Logging.console st) = None <->
   log_format st = "json") /\
  Logging.configure_logging refuses st
    (snd (Logging.configure_logging refuses st handlers)) =
  Logging.configure_logging refuses st handlers.
Proof.
  intros Hc Hf.
  assert (Hr : forall hs, Logging.configure_logging refuses st hs =
                          (Normal tt, [Logging.console st; Logging.file st])).
  { intros hs. unfold Logging.configure_logging, Logging.logger_add,
      Logging.logger_remove. rewrite Hc. cbn. now rewrite Hf. }
  split; [apply Hr |].
  unfold Logging.console.
  destruct (String.eqb_spec (log_format st) "json") as [Hj | Hj]; cbn.
  all: repeat split; try reflexivity; try rewrite !Hr; try reflexivity.
  all: try (intros; assumption); try discriminate.
  intros H. contradiction.
Qed.

Lemma configure_logging_installs_witness :
  Logging.configure_logging (fun _ => None) Settings_default
    [Logging.file Settings_default; Logging.file Settings_default] =
  (Normal tt, [Logging.console Settings_default; Logging.file Settings_default]).
Proof.
  exact (proj1 (configure_logging_installs (fun _ => None) Settings_default
                  [Logging.file Settings_default; Logging.file Settings_default]
                  eq_refl eq_refl)).
Defined.

(** X15.  The handlers that were installed are taken out before anything is
    added, so a failure leaves the logger short: when the console handler
    is refused, [configure_logging] raises and the logger has no handler at
    all; when the file handler is refused, it raises and the console handler
    is the only one left. *)
Theorem configure_logging_failure (refuses : Logging.Handler -> option exn)
    (st : Settings) (handlers : list Logging.Handler) (e : exn) :
  (refuses (Logging.console st) = Some e ->
   Logging.configure_logging refuses st handlers = (Raise e, [])) /\
  (refuses (Logging.console st) = None ->
   refuses (Logging.file st) = Some e ->
   Logging.configure_logging refuses st handlers =
     (Raise e, [Logging.console st])).
Proof.
  unfold Logging.configure_logging, Logging.logger_add, Logging.logger_remove.
  split.
  - intros ->. reflexivity.
  - intros -> Hf. cbn. now rewrite Hf.
Qed.

Lemma configure_logging_failure_witness :
  Logging.configure_logging
    (fun h => if String.eqb (Logging.level h) "VERBOSE"
              then Some (Exception "ValueError" "Level 'VERBOSE' does not exist")
              else None)
    {| environment := "development"; debug := true; log_level := "VERBOSE";
       log_format := "text"; sensors := SensorSettings_default;
       api := APISettings_default |}
    [Logging.console Settings_default] =
  (Raise (Exception "ValueError" "Level 'VERBOSE' does not exist"), []).
Proof.
  exact (proj1 (configure_logging_failure
                  (fun h => if String.eqb (Logging.level h) "VERBOSE"
                            then Some (Exception "ValueError"
                                         "Level 'VERBOSE' does not exist")
                            else None)
                  {| environment := "development"; debug := true;
                     log_level := "VERBOSE"; log_format := "text";
                     sensors := SensorSettings_default;
                     api := APISettings_default |}
                  [Logging.console Settings_default]
                  (Exception "ValueError" "Level 'VERBOSE' does not exist"))
           eq_refl).
Defined.
